(** * The property form of the real-estate assistant

    A shallow embedding of the form model ([app/models/property_form.py]),
    of the session-state adapter ([app/utils/state_management.py]) and of
    the two agent tools with the validator callback
    ([app/agents/tools/tools.py], [app/agents/form_validator.py]), followed
    by the properties the specification states about them.  The summary
    of the form, the callbacks of the two other agents and the loop that
    assembles a streamed response ([app/main.py],
    [frontend/components/response_handler.py]) come with properties of
    their own.

    Python objects mutated in place become explicit state passing: a method
    that mutates [self] returns the new form, a function that mutates the
    session state is a computation in the monad [Session].  Exceptions are
    the [Raise] results of [Result]. *)

From stdpp Require Import gmap strings list fin_maps.
From Stdlib Require Import ZArith Ascii String.

#[local] Open Scope string_scope.
#[local] Open Scope Z_scope.

(** ** Exceptions and results *)

Inductive PyExn : Set :=
  | ReError            (* re.error, from re.compile *)
  | ValidationError    (* pydantic.ValidationError, from model_validate *)
  | TypeError          (* unsupported operand of += *)
  | KeyError           (* subscript of an absent key *)
  | AttributeError.    (* getattr of an absent attribute *)

Inductive Result (A : Type) : Type :=
  | Ok (a : A)
  | Raise (e : PyExn).
Arguments Ok {A} a.
Arguments Raise {A} e.

#[global] Instance Result_ret : MRet Result := λ A a, Ok a.
#[global] Instance Result_bind : MBind Result := λ A B k r,
  match r with
  | Ok a => k a
  | Raise e => Raise e
  end.

Definition is_Ok {A} (r : Result A) : bool :=
  match r with Ok _ => true | Raise _ => false end.

Definition to_option {A} (r : Result A) : option A :=
  match r with Ok a => Some a | Raise _ => None end.

(** ** What the Python runtime provides

    The regular-expression engine and the case mapping of [str] are
    Python's, not the repository's.  [re_compile p] is [None] when
    [re.compile(p)] raises [re.error]; [Pattern_match] is
    [Pattern.match], a match anchored at the start of the value.  The one
    law is a fact of [re]: the empty pattern matches at the start of every
    string. *)

Class PyRuntime : Type := {
  Pattern : Type;
  re_compile : string → option Pattern;
  Pattern_match : Pattern → string → bool;
  str_lower : string → string;
  re_compile_empty :
    ∃ p, re_compile "" = Some p ∧ ∀ v, Pattern_match p v = true;
}.

(** [str.replace(old, new)] for one-character [old] and [new]. *)
Fixpoint str_replace (old new : ascii) (s : string) : string :=
  match s with
  | EmptyString => EmptyString
  | String c rest =>
      String (if Ascii.eqb c old then new else c) (str_replace old new rest)
  end.

(** Truth value of a [str]: false exactly for the empty string. *)
Definition str_truthy (s : string) : bool :=
  match s with EmptyString => false | String _ _ => true end.

(** ** Data model *)

Inductive FieldStatus : Set := NOT_PROVIDED | INVALID | VALID.

#[global] Instance FieldStatus_eq_dec : EqDecision FieldStatus.
Proof. solve_decision. Defined.

(** The value of the [str] enumeration member. *)
Definition FieldStatus_value (s : FieldStatus) : string :=
  match s with
  | NOT_PROVIDED => "not_provided"
  | INVALID => "invalid"
  | VALID => "valid"
  end.

Record PropertyField : Type := mkPropertyField {
  status : FieldStatus;
  value : option string;
  description : string;
  examples : list string;
  validation_pattern : option string;
}.

Definition set_value (v : option string) (f : PropertyField) : PropertyField :=
  mkPropertyField (status f) v (description f) (examples f)
    (validation_pattern f).

Definition set_status (s : FieldStatus) (f : PropertyField) : PropertyField :=
  mkPropertyField s (value f) (description f) (examples f)
    (validation_pattern f).

(** [additional_fields] is a [dict] used as a map from names to fields. *)
Record PropertyFormModel : Type := mkPropertyFormModel {
  budget : PropertyField;
  total_size : PropertyField;
  real_estate_type : PropertyField;
  city : PropertyField;
  additional_fields : gmap string PropertyField;
  form_complete : bool;
}.

Definition set_additional_fields (m : gmap string PropertyField)
    (self : PropertyFormModel) : PropertyFormModel :=
  mkPropertyFormModel (budget self) (total_size self) (real_estate_type self)
    (city self) m (form_complete self).

Definition set_form_complete (b : bool) (self : PropertyFormModel)
    : PropertyFormModel :=
  mkPropertyFormModel (budget self) (total_size self) (real_estate_type self)
    (city self) (additional_fields self) b.

(** The field constructor with the defaults of the class:
    [status = NOT_PROVIDED], [value = None], [validation_pattern = None]. *)
Definition PropertyField_new (descr : string) (ex : list string)
    : PropertyField :=
  mkPropertyField NOT_PROVIDED None descr ex None.

Definition budget_default : PropertyField :=
  PropertyField_new "Budget for the property (e.g., 20,000 USD)"
    ["I have a budget of 20,000 USD"; "My budget is 50,000 dollars"].

Definition total_size_default : PropertyField :=
  PropertyField_new "Total size requirement (e.g., 500m¬≤)"
    ["I need 500m¬≤"; "I'm looking for 300 square meters"].

Definition real_estate_type_default : PropertyField :=
  PropertyField_new "Type of real estate (e.g., office, retail, warehouse)"
    ["I am looking for an office space"; "I need a retail location"].

Definition city_default : PropertyField :=
  PropertyField_new "City location (e.g., Mexico City)"
    ["I want a property in Mexico City"; "Looking in Barcelona"].

(** [PropertyFormModel()]: every default factory, no additional field,
    [form_complete = False]. *)
Definition PropertyFormModel_new : PropertyFormModel :=
  mkPropertyFormModel budget_default total_size_default
    real_estate_type_default city_default ∅ false.

(** The names tested by [update_field] and listed as [standard_fields] by
    [extract_field]. *)
Definition required_field_names : list string :=
  ["budget"; "total_size"; "real_estate_type"; "city"].

(** [getattr(self, name)] and the write through the object it returns, for
    the four field attributes. *)
Definition getattr (self : PropertyFormModel) (name : string)
    : option PropertyField :=
  if decide (name = "budget") then Some (budget self)
  else if decide (name = "total_size") then Some (total_size self)
  else if decide (name = "real_estate_type") then Some (real_estate_type self)
  else if decide (name = "city") then Some (city self)
  else None.

Definition setattr (self : PropertyFormModel) (name : string)
    (f : PropertyField) : PropertyFormModel :=
  if decide (name = "budget") then
    mkPropertyFormModel f (total_size self) (real_estate_type self)
      (city self) (additional_fields self) (form_complete self)
  else if decide (name = "total_size") then
    mkPropertyFormModel (budget self) f (real_estate_type self)
      (city self) (additional_fields self) (form_complete self)
  else if decide (name = "real_estate_type") then
    mkPropertyFormModel (budget self) (total_size self) f
      (city self) (additional_fields self) (form_complete self)
  else if decide (name = "city") then
    mkPropertyFormModel (budget self) (total_size self)
      (real_estate_type self) f (additional_fields self) (form_complete self)
  else self.

(** ** The form model: [PropertyField] and [PropertyFormModel] methods *)

Definition pattern_mismatch_message : string :=
  "The value does not match the expected pattern for this field.".

Module property_form.
Section Model.
Context `{PyRuntime}.

(** [re.compile(pat).match(value)] as a truth value; [None] when the
    pattern does not compile. *)
Definition re_match (pat value : string) : option bool :=
  pattern ← re_compile pat; Some (Pattern_match pattern value).

(** [PropertyField.validate_value].  The guard
    [self.validation_pattern and value] is false for an absent or empty
    pattern and for an empty value; [re.compile] may raise. *)
Definition validate_value (self : PropertyField) (value : string)
    : Result (bool * option string) :=
  match validation_pattern self with
  | Some pat =>
      if str_truthy pat && str_truthy value then
        match re_compile pat with
        | Some pattern =>
            if negb (Pattern_match pattern value)
            then Ok (false, Some pattern_mismatch_message)
            else Ok (true, None)
        | None => Raise ReError
        end
      else Ok (true, None)
  | None => Ok (true, None)
  end.

(** [PropertyFormModel.is_complete]: [all(...)] over the four fields. *)
Definition is_complete (self : PropertyFormModel) : bool :=
  let required_fields :=
    [budget self; total_size self; real_estate_type self; city self] in
  forallb (λ field, bool_decide (status field = VALID)) required_fields.

(** [PropertyFormModel.update_completion_status]: the new form and the
    returned flag. *)
Definition update_completion_status (self : PropertyFormModel)
    : PropertyFormModel * bool :=
  let self' := set_form_complete (is_complete self) self in
  (self', form_complete self').

(** The literal [fields_map] of [get_missing_fields], in insertion
    order. *)
Definition fields_map (self : PropertyFormModel)
    : list (string * PropertyField) :=
  [("budget", budget self); ("total_size", total_size self);
   ("real_estate_type", real_estate_type self); ("city", city self)].

(** [PropertyFormModel.get_missing_fields]: the loop appends to
    [missing]. *)
Definition get_missing_fields (self : PropertyFormModel) : list string :=
  foldl (λ missing '(name, field),
           if bool_decide (status field ≠ VALID)
           then (missing ++ [name])%list else missing)
        [] (fields_map self).

(** [PropertyFormModel.update_field]: the form after the call and the
    returned pair.  An exception of [validate_value] leaves before any
    assignment. *)
Definition update_field (self : PropertyFormModel)
    (field_name value : string)
    : Result (PropertyFormModel * (bool * option string)) :=
  if bool_decide (field_name ∈ required_field_names) then
    match getattr self field_name with
    | Some field =>
        '(is_valid, error_msg) ← validate_value field value;
        let field := set_value (Some value) field in
        let field :=
          set_status (if is_valid : bool then VALID else INVALID) field in
        let self := setattr self field_name field in
        let self := fst (update_completion_status self) in
        Ok (self, (is_valid, error_msg))
    | None => Raise AttributeError
    end
  else
    match additional_fields self !! field_name with
    | None =>
        let created :=
          mkPropertyField VALID (Some value)
            ("Additional field: " ++ field_name)%string [value] None in
        Ok (set_additional_fields
              (<[field_name := created]> (additional_fields self)) self,
            (true, None))
    | Some field =>
        let field := set_value (Some value) field in
        let field := set_status VALID field in
        Ok (set_additional_fields
              (<[field_name := field]> (additional_fields self)) self,
            (true, None))
    end.

(** A sequence of [update_field] calls on one form object; the returned
    pairs are dropped. *)
Fixpoint update_fields (self : PropertyFormModel)
    (calls : list (string * string)) : Result PropertyFormModel :=
  match calls with
  | [] => Ok self
  | (field_name, value) :: rest =>
      '(self, _) ← update_field self field_name value;
      update_fields self rest
  end.

End Model.
End property_form.
Import property_form.

(** ** Python values and the session state

    The session state is a [dict] from [str] keys to plain data.
    [model_dump] yields nested [dict]s and [list]s; a [FieldStatus] member
    is a [str] and is dumped as such. *)

#[warnings="-register-all"]
Inductive PyValue : Type :=
  | VNone
  | VBool (b : bool)
  | VInt (n : Z)
  | VStr (s : string)
  | VList (l : list PyValue)
  | VDict (d : gmap string PyValue).

Abbreviation State := (gmap string PyValue).

(** Computations on the session state that may raise: the state after the
    call (mutations made before an exception stay) and the outcome. *)
Definition Session (A : Type) : Type := State → State * Result A.

#[global] Instance Session_ret : MRet Session := λ A a st, (st, Ok a).
#[global] Instance Session_bind : MBind Session := λ A B k c st,
  match c st with
  | (st', Ok a) => k a st'
  | (st', Raise e) => (st', Raise e)
  end.

Definition lift {A} (r : Result A) : Session A := λ st, (st, r).
Definition get_state : Session State := λ st, (st, Ok st).
Definition setitem (key : string) (v : PyValue) : Session unit :=
  λ st, (<[key := v]> st, Ok tt).

(** ** Serialisation: pydantic's [model_dump] and [model_validate]

    The two functions are pydantic's; they are written out here for the
    two models of the repository.  [model_validate] takes the defaults of
    the class for absent keys, ignores unknown keys and raises on a value
    of another type than the declared one (the coercions pydantic adds for
    foreign input, such as [1] for [True], are left out: they raise
    here). *)

Definition dump_optional_str (o : option string) : PyValue :=
  match o with Some s => VStr s | None => VNone end.

Definition PropertyField_model_dump (self : PropertyField) : PyValue :=
  VDict (<["status" := VStr (FieldStatus_value (status self))]>
        (<["value" := dump_optional_str (value self)]>
        (<["description" := VStr (description self)]>
        (<["examples" := VList (VStr <$> examples self)]>
        (<["validation_pattern" :=
             dump_optional_str (validation_pattern self)]> ∅))))).

Definition model_dump (self : PropertyFormModel) : PyValue :=
  VDict (<["budget" := PropertyField_model_dump (budget self)]>
        (<["total_size" := PropertyField_model_dump (total_size self)]>
        (<["real_estate_type" :=
             PropertyField_model_dump (real_estate_type self)]>
        (<["city" := PropertyField_model_dump (city self)]>
        (<["additional_fields" :=
             VDict (PropertyField_model_dump <$> additional_fields self)]>
        (<["form_complete" := VBool (form_complete self)]> ∅)))))).

Definition validate_status (o : option PyValue) : Result FieldStatus :=
  match o with
  | None => Ok NOT_PROVIDED
  | Some (VStr s) =>
      if decide (s = "not_provided") then Ok NOT_PROVIDED
      else if decide (s = "invalid") then Ok INVALID
      else if decide (s = "valid") then Ok VALID
      else Raise ValidationError
  | Some _ => Raise ValidationError
  end.

Definition validate_optional_str (o : option PyValue)
    : Result (option string) :=
  match o with
  | None | Some VNone => Ok None
  | Some (VStr s) => Ok (Some s)
  | Some _ => Raise ValidationError
  end.

Definition validate_str (o : option PyValue) : Result string :=
  match o with
  | Some (VStr s) => Ok s
  | _ => Raise ValidationError
  end.

Fixpoint validate_strs (l : list PyValue) : Result (list string) :=
  match l with
  | [] => Ok []
  | VStr s :: rest => strs ← validate_strs rest; Ok (s :: strs)
  | _ :: _ => Raise ValidationError
  end.

Definition validate_str_list (o : option PyValue) : Result (list string) :=
  match o with
  | Some (VList l) => validate_strs l
  | _ => Raise ValidationError
  end.

Definition PropertyField_model_validate (v : PyValue) : Result PropertyField :=
  match v with
  | VDict d =>
      st ← validate_status (d !! "status");
      val ← validate_optional_str (d !! "value");
      descr ← validate_str (d !! "description");
      ex ← validate_str_list (d !! "examples");
      pat ← validate_optional_str (d !! "validation_pattern");
      Ok (mkPropertyField st val descr ex pat)
  | _ => Raise ValidationError
  end.

(** A field of the form: the default factory when the key is absent. *)
Definition validate_field_or (dflt : PropertyField) (o : option PyValue)
    : Result PropertyField :=
  match o with
  | None => Ok dflt
  | Some v => PropertyField_model_validate v
  end.

Definition validate_additional_fields (o : option PyValue)
    : Result (gmap string PropertyField) :=
  match o with
  | None => Ok ∅
  | Some (VDict d) =>
      if bool_decide
           (map_Forall (λ _ v, is_Ok (PropertyField_model_validate v)) d)
      then Ok (omap (λ v, to_option (PropertyField_model_validate v)) d)
      else Raise ValidationError
  | Some _ => Raise ValidationError
  end.

Definition validate_bool_or (dflt : bool) (o : option PyValue) : Result bool :=
  match o with
  | None => Ok dflt
  | Some (VBool b) => Ok b
  | Some _ => Raise ValidationError
  end.

Definition model_validate (v : PyValue) : Result PropertyFormModel :=
  match v with
  | VDict d =>
      b ← validate_field_or budget_default (d !! "budget");
      ts ← validate_field_or total_size_default (d !! "total_size");
      ret ← validate_field_or real_estate_type_default
              (d !! "real_estate_type");
      c ← validate_field_or city_default (d !! "city");
      add ← validate_additional_fields (d !! "additional_fields");
      fc ← validate_bool_or false (d !! "form_complete");
      Ok (mkPropertyFormModel b ts ret c add fc)
  | _ => Raise ValidationError
  end.

(** ** The session-state adapter ([app/utils/state_management.py]) *)

Module state_management.
Section Adapter.
Context `{PyRuntime}.

(** [initialize_form_in_state]: writes the dump of a new form unless the
    key is there. *)
Definition initialize_form_in_state : Session unit := λ state,
  match state !! "property_form" with
  | None => setitem "property_form" (model_dump PropertyFormModel_new) state
  | Some _ => (state, Ok tt)
  end.

(** [get_form_from_state]: initialise, then validate
    [state['property_form']]. *)
Definition get_form_from_state : Session PropertyFormModel :=
  _ ← initialize_form_in_state;
  state ← get_state;
  match state !! "property_form" with
  | Some v => lift (model_validate v)
  | None => lift (Raise KeyError)
  end.

(** [update_form_in_state]. *)
Definition update_form_in_state (form : PropertyFormModel) : Session unit :=
  setitem "property_form" (model_dump form).

(** [update_field_in_form]: load, update the loaded object, save. *)
Definition update_field_in_form (field_name value : string)
    : Session (bool * option string) :=
  form ← get_form_from_state;
  '(form, (success, error_msg)) ← lift (update_field form field_name value);
  _ ← update_form_in_state form;
  mret (success, error_msg).

Definition is_form_complete : Session bool :=
  form ← get_form_from_state;
  mret (is_complete form).

Definition get_missing_fields : Session (list string) :=
  form ← get_form_from_state;
  mret (property_form.get_missing_fields form).

End Adapter.
End state_management.

(** ** The agent tools ([app/agents/tools/tools.py]) *)

(** The three dictionaries [extract_field] returns, by their ['status']. *)
Inductive ExtractResult : Type :=
  | Unchanged (field value message : string)
  | Error (field value error : string)
  | Success (field value : string) (is_standard_field : bool).

Definition result_status (r : ExtractResult) : string :=
  match r with
  | Unchanged _ _ _ => "unchanged"
  | Error _ _ _ => "error"
  | Success _ _ _ => "success"
  end.

(** The dictionary [check_form_status] returns.  Its ['summary'] entry, the
    text rendered by [get_fields_summary], is not part of the model; the
    load of the form that precedes the rendering is. *)
Record FormStatus : Type := mkFormStatus {
  status_form_complete : bool;
  status_missing_fields : list string;
  validation_count : PyValue;
}.

Module tools.
Section Tools.
Context `{PyRuntime}.

Definition standard_fields : list string :=
  ["budget"; "total_size"; "real_estate_type"; "city"].

(** [field_name.lower().replace(' ', '_')]. *)
Definition normalize (field_name : string) : string :=
  str_replace " " "_" (str_lower field_name).

(** The value read before the update: [None] unless the name is a
    standard attribute of the form or a key of [additional_fields]. *)
Definition current_value_of (form : PropertyFormModel)
    (normalized_field_name : string) (is_standard_field : bool)
    : option string :=
  if is_standard_field
     && bool_decide (is_Some (getattr form normalized_field_name))
  then field ← getattr form normalized_field_name; value field
  else if negb is_standard_field
          && bool_decide (normalized_field_name ∈ dom (additional_fields form))
  then field ← additional_fields form !! normalized_field_name; value field
  else None.

(** [extract_field].  [error_msg or 'Validation failed'] takes the
    second operand for [None] and for the empty string. *)
Definition extract_field (field_name value : string)
    : Session ExtractResult :=
  let normalized_field_name := normalize field_name in
  let is_standard_field :=
    bool_decide (normalized_field_name ∈ standard_fields) in
  form ← state_management.get_form_from_state;
  let current_value :=
    current_value_of form normalized_field_name is_standard_field in
  if bool_decide (current_value = Some value) then
    mret (Unchanged normalized_field_name value
            "Field already has this value")
  else
    '(success, error_msg) ←
      state_management.update_field_in_form normalized_field_name value;
    if negb success then
      let error :=
        match error_msg with
        | Some msg => if str_truthy msg then msg else "Validation failed"
        | None => "Validation failed"
        end in
      mret (Error normalized_field_name value error)
    else
      mret (Success normalized_field_name value is_standard_field).

(** [check_form_status]: three loads of the form, then
    [state.get('form_validation_count', 0)]. *)
Definition check_form_status : Session FormStatus :=
  missing ← state_management.get_missing_fields;
  complete ← state_management.is_form_complete;
  _ ← state_management.get_form_from_state;
  state ← get_state;
  let count := default (VInt 0) (state !! "form_validation_count") in
  mret (mkFormStatus complete missing count).

End Tools.
End tools.

(** ** The validator callback ([app/agents/form_validator.py]) *)

Module form_validator.

(** [x += 1] on the stored value: [bool] is an [int]; the other values
    have no [+] with an [int]. *)
Definition add_one (x : PyValue) : Result PyValue :=
  match x with
  | VInt n => Ok (VInt (n + 1))
  | VBool b => Ok (VInt (Z.b2z b + 1))
  | _ => Raise TypeError
  end.

(** [before_validator_cb]. *)
Definition before_validator_cb : Session unit := λ state,
  match state !! "form_validation_count" with
  | None => setitem "form_validation_count" (VInt 0) state
  | Some x =>
      match add_one x with
      | Ok x' => setitem "form_validation_count" x' state
      | Raise e => (state, Raise e)
      end
  end.

End form_validator.

(** ** The summary of the form ([PropertyFormModel.get_fields_summary])

    The markers are the literal text of the source file. *)

Definition mark_valid : string := "‚úÖ".
Definition mark_invalid : string := "‚ùå".
Definition mark_not_provided : string := "‚¨ú".
Definition mark_additional : string := "üìå".

(** The line feed of ['\n']. *)
Definition newline : string := String "010" EmptyString.

(** [str(x)] in an f-string, for an optional [str]. *)
Definition format_optional (o : option string) : string := default "None" o.

Module form_summary.
Section Summary.

(** [str.title], Python's. *)
Variable str_title : string → string.

(** [self.additional_fields.items()]: the entries in the insertion order
    of the dict, an order the map does not record. *)
Variable items : list (string * PropertyField).

(** The literal [fields_map] of [get_fields_summary]. *)
Definition fields_map (self : PropertyFormModel)
    : list (string * PropertyField) :=
  [("Budget", budget self); ("Total Size", total_size self);
   ("Real Estate Type", real_estate_type self); ("City", city self)].

(** The entry appended for a required field. *)
Definition required_entry (entry : string * PropertyField) : string :=
  let '(name, field) := entry in
  match status field with
  | VALID =>
      mark_valid ++ " **" ++ name ++ "**: " ++ format_optional (value field)
  | INVALID =>
      mark_invalid ++ " **" ++ name ++ "**: "
        ++ format_optional (value field) ++ " (Invalid)"
  | NOT_PROVIDED => mark_not_provided ++ " **" ++ name ++ "**: Not provided"
  end.

(** The entry appended for an additional field. *)
Definition additional_entry (entry : string * PropertyField) : string :=
  let '(name, field) := entry in
  let display_name := str_title (str_replace "_" " " name) in
  mark_additional ++ " **" ++ display_name ++ "**: "
    ++ format_optional (value field).

(** The last entry: it follows the cached flag [form_complete]. *)
Definition status_entry (self : PropertyFormModel) : string :=
  if form_complete self then
    mark_valid ++ " All required fields are complete!"
  else
    let missing := get_missing_fields self in
    let missing_str :=
      String.concat ", " (List.map (λ field, "`" ++ field ++ "`") missing) in
    mark_not_provided ++ " Waiting for: " ++ missing_str.

(** The list [summary] at the end of [get_fields_summary]. *)
Definition summary_entries (self : PropertyFormModel) : list string :=
  (["### Required Fields"]
   ++ List.map required_entry (fields_map self)
   ++ (if bool_decide (additional_fields self ≠ ∅)
       then (newline ++ "### Additional Fields")%string
              :: List.map additional_entry items
       else [])
   ++ [(newline ++ "### Form Status")%string; status_entry self])%list.

(** [PropertyFormModel.get_fields_summary]. *)
Definition get_fields_summary (self : PropertyFormModel) : string :=
  String.concat newline (summary_entries self).

End Summary.
End form_summary.

(** ** Counters of the agent callbacks *)

(** The counting idiom of the three callbacks: [state[key] = start] when
    the key is absent, [state[key] += 1] otherwise. *)
Definition count_up (key : string) (start : Z) : Session unit := λ state,
  match state !! key with
  | None => setitem key (VInt start) state
  | Some x =>
      match form_validator.add_one x with
      | Ok x' => setitem key x' state
      | Raise e => (state, Raise e)
      end
  end.

(** ** The extractor callback ([app/agents/field_extractor.py]) *)

Module field_extractor.

(** [before_agent_cb]: load and save the form when the key is absent, then
    count the extraction attempt from 1. *)
Definition before_agent_cb : Session unit :=
  state ← get_state;
  _ ← match state !! "property_form" with
      | None =>
          form ← state_management.get_form_from_state;
          state_management.update_form_in_state form
      | Some _ => mret tt
      end;
  count_up "extraction_count" 1.

End field_extractor.

(** ** The root callback ([app/agents/root_agent.py]) *)

Module root_agent.

(** [before_root_cb]: count the conversation turn from 1. *)
Definition before_root_cb : Session unit := count_up "conversation_turn" 1.

End root_agent.

(** ** Streaming ([app/main.py], [frontend/components/response_handler.py]) *)

Module main.

(** The attributes of an event that [_process_live_events] reads.  A
    [Content] object is always true; [parts] is true when it is a
    non-empty list. *)
Record Part : Type := mkPart { part_text : option string }.
Record Content : Type := mkContent { parts : option (list Part) }.
Record Event : Type := mkEvent {
  partial : option bool;
  turn_complete : option bool;
  content : option Content;
}.

(** The dictionary yielded for an event; the error chunk of
    [run_streaming] has the same three keys. *)
Record Chunk : Type := mkChunk {
  chunk_text : string;
  chunk_done : bool;
  chunk_partial : bool;
}.

(** [x or False] for an optional [bool]. *)
Definition or_False (x : option bool) : bool := default false x.

(** One iteration of [_process_live_events]: the chunk for an event. *)
Definition chunk_of_event (event : Event) : Chunk :=
  let text_content :=
    match content event with
    | Some c =>
        match parts c with
        | Some (first :: _) =>
            match part_text first with
            | Some text => if str_truthy text then text else ""
            | None => ""
            end
        | _ => ""
        end
    | None => ""
    end in
  mkChunk text_content (or_False (turn_complete event))
    (or_False (partial event)).

(** [_process_live_events] on the events of a finished stream. *)
Definition process_live_events (live_events : list Event) : list Chunk :=
  List.map chunk_of_event live_events.

End main.

Module response_handler.
Import main.

(** The loop of [process_stream] over the chunks received: the text
    accumulated, the complete text when one was received, and the texts
    shown in the placeholder so far. *)
Fixpoint stream_loop (chunks : list Chunk) (local_response_acc : string)
    (final_complete_text : option string) (shown : list string)
    : string * option string * list string :=
  match chunks with
  | [] => (local_response_acc, final_complete_text, shown)
  | chunk :: rest =>
      let is_partial_chunk := chunk_partial chunk in
      let '(acc, final, shown) :=
        if str_truthy (chunk_text chunk) && is_partial_chunk then
          let acc := (local_response_acc ++ chunk_text chunk)%string in
          (acc, final_complete_text,
           (shown ++ [("**Assistant:** " ++ acc)%string])%list)
        else if str_truthy (chunk_text chunk) && negb is_partial_chunk then
          (local_response_acc, Some (chunk_text chunk),
           (shown ++ [("**Assistant:** " ++ chunk_text chunk)%string])%list)
        else (local_response_acc, final_complete_text, shown) in
      if chunk_done chunk then (acc, final, shown)
      else stream_loop rest acc final shown
  end.

(** [process_stream]: the returned text and the texts shown. *)
Definition process_stream (chunks : list Chunk) : string * list string :=
  let '(acc, final, shown) := stream_loop chunks "" None [] in
  (match final with Some text => text | None => acc end, shown).

End response_handler.

(** ** Runs of a session

    The agent runtime calls the callbacks and the tools one after the
    other on the state of one session. *)

(** A callback run [n] times in a row. *)
Fixpoint repeat_callback (n : nat) (callback : Session unit) : Session unit :=
  match n with
  | O => mret tt
  | S n => _ ← callback; repeat_callback n callback
  end.

Inductive Call : Type :=
  | CallExtractField (field_name value : string)
  | CallCheckFormStatus
  | CallBeforeRoot
  | CallBeforeAgent
  | CallBeforeValidator.

Inductive Outcome : Type :=
  | Extracted (r : ExtractResult)
  | Checked (r : FormStatus)
  | CalledBack.

Module session.
Section Runs.
Context `{PyRuntime}.

Definition run_call (call : Call) : Session Outcome :=
  match call with
  | CallExtractField field_name value =>
      r ← tools.extract_field field_name value; mret (Extracted r)
  | CallCheckFormStatus => r ← tools.check_form_status; mret (Checked r)
  | CallBeforeRoot => _ ← root_agent.before_root_cb; mret CalledBack
  | CallBeforeAgent => _ ← field_extractor.before_agent_cb; mret CalledBack
  | CallBeforeValidator =>
      _ ← form_validator.before_validator_cb; mret CalledBack
  end.

Fixpoint run_calls (calls : list Call) : Session (list Outcome) :=
  match calls with
  | [] => mret []
  | call :: rest =>
      outcome ← run_call call;
      outcomes ← run_calls rest;
      mret (outcome :: outcomes)
  end.

End Runs.
End session.

(** ** A runtime to run examples on

    Patterns without any of the special characters of [re] match exactly
    the strings they are a prefix of, and ASCII letters have the usual
    lower case.  This instance covers those patterns and leaves the other
    characters of a string as they are; a pattern with a special character
    is not supported and is reported as not compiling. *)

Definition re_special_chars : list ascii :=
  ["."; "^"; "$"; "*"; "+"; "?"; "{"; "}"; "["; "]"; "\"; "|"; "("; ")"]%char.

Fixpoint literal_pattern (p : string) : bool :=
  match p with
  | EmptyString => true
  | String c rest =>
      negb (existsb (Ascii.eqb c) re_special_chars) && literal_pattern rest
  end.

Definition ascii_lower (c : ascii) : ascii :=
  let n := nat_of_ascii c in
  if ((65 <=? n) && (n <=? 90))%nat then ascii_of_nat (n + 32) else c.

Fixpoint ascii_str_lower (s : string) : string :=
  match s with
  | EmptyString => EmptyString
  | String c rest => String (ascii_lower c) (ascii_str_lower rest)
  end.

Definition literal_runtime : PyRuntime := {|
  Pattern := string;
  re_compile := λ p, if literal_pattern p then Some p else None;
  Pattern_match := String.prefix;
  str_lower := ascii_str_lower;
  re_compile_empty :=
    ex_intro _ ""
      (conj eq_refl
         (λ v, match v return String.prefix "" v = true with
               | EmptyString => eq_refl
               | String _ _ => eq_refl
               end));
|}.

(** * Statements *)

Definition all_required_valid (form : PropertyFormModel) : Prop :=
  status (budget form) = VALID ∧ status (total_size form) = VALID
  ∧ status (real_estate_type form) = VALID ∧ status (city form) = VALID.

(** No required field carries a validation pattern. *)
Definition patternless (form : PropertyFormModel) : Prop :=
  validation_pattern (budget form) = None
  ∧ validation_pattern (total_size form) = None
  ∧ validation_pattern (real_estate_type form) = None
  ∧ validation_pattern (city form) = None.

(** The statuses of the required fields, by name. *)
Definition is_missing (form : PropertyFormModel) (name : string) : bool :=
  match getattr form name with
  | Some field => bool_decide (status field ≠ VALID)
  | None => false
  end.

(** The field a name denotes in a form: the attribute for a required name,
    the entry of [additional_fields] otherwise. *)
Definition stored_field (form : PropertyFormModel) (name : string)
    : option PropertyField :=
  if bool_decide (name ∈ required_field_names)
  then getattr form name
  else additional_fields form !! name.

(** A counter of the session: not yet set, or an integer. *)
Definition counter_ok (state : State) (key : string) : Prop :=
  state !! key = None ∨ ∃ n, state !! key = Some (VInt n).

(** The sessions the application itself produces: the form entry, when
    there is one, is the dump of a form without validation patterns whose
    cached flag is up to date, and the three counters are integers. *)
Definition session_ok (state : State) : Prop :=
  (state !! "property_form" = None
   ∨ ∃ form, state !! "property_form" = Some (model_dump form)
       ∧ patternless form ∧ form_complete form = is_complete form)
  ∧ counter_ok state "conversation_turn"
  ∧ counter_ok state "extraction_count"
  ∧ counter_ok state "form_validation_count".

(** The text of the first part of an event, when there is one. *)
Definition first_text (event : main.Event) : option string :=
  c ← main.content event; ps ← main.parts c; first ← head ps;
  main.part_text first.

(** A chunk that carries a complete, non-partial text. *)
Definition complete_text_chunk (chunk : main.Chunk) : Prop :=
  main.chunk_partial chunk = false ∧ main.chunk_text chunk ≠ "".


(** ** Inputs of the examples *)

Definition letters_field : PropertyField :=
  mkPropertyField NOT_PROVIDED None "Two letters" ["ab"] (Some "ab").

(** A form whose city field carries the pattern [a]. *)
Definition city_pattern_form : PropertyFormModel :=
  setattr PropertyFormModel_new "city"
    (mkPropertyField NOT_PROVIDED None (description city_default)
       (examples city_default) (Some "a")).

(** The city field of [city_pattern_form] after "Berlin" was rejected. *)
Definition invalid_city_form : PropertyFormModel :=
  set_form_complete false
    (setattr city_pattern_form "city"
       (set_status INVALID
          (set_value (Some "Berlin") (city city_pattern_form)))).

Definition city_pattern_state : State :=
  {["property_form" := model_dump city_pattern_form]}.

Definition invalid_city_state : State :=
  {["property_form" := model_dump invalid_city_form]}.

(** A session whose stored form says it is complete, with no field
    provided. *)
Definition stale_state : State :=
  {["property_form" := model_dump (set_form_complete true PropertyFormModel_new)]}.


(** A session whose form entry is not a dictionary. *)
Definition malformed_state : State := {["property_form" := VStr "gone"]}.

(** A session in which the validator agent has run four times. *)
Definition counted_state : State := {["form_validation_count" := VInt 3]}.

(** * Proofs *)

Ltac required_cases Hin :=
  unfold required_field_names in Hin;
  repeat (apply elem_of_cons in Hin as [-> | Hin]);
  [ .. | by apply elem_of_nil in Hin ].

Section ModelFacts.
Context `{PyRuntime}.

Lemma is_complete_true form :
  is_complete form = true ↔ all_required_valid form.
Proof.
  unfold is_complete, all_required_valid. simpl.
  rewrite !andb_true_iff, !bool_decide_eq_true. tauto.
Qed.

Lemma getattr_required form name :
  name ∈ required_field_names → is_Some (getattr form name).
Proof. intros Hin. required_cases Hin; by eexists. Qed.

Lemma getattr_Some_required form name field :
  getattr form name = Some field → name ∈ required_field_names.
Proof.
  unfold getattr, required_field_names.
  repeat case_decide; subst; try discriminate; intros _; set_solver.
Qed.

Lemma getattr_setattr form name field :
  name ∈ required_field_names →
  getattr (setattr form name field) name = Some field.
Proof. intros Hin. by required_cases Hin. Qed.

Lemma validate_value_no_pattern field v :
  validation_pattern field = None → validate_value field v = Ok (true, None).
Proof. unfold validate_value. by intros ->. Qed.

Lemma validate_value_empty field :
  validate_value field "" = Ok (true, None).
Proof.
  unfold validate_value.
  destruct (validation_pattern field); [by rewrite andb_false_r | done].
Qed.

(** The one exception of [validate_value]: a pattern that does not
    compile, when the guard lets it through. *)
Lemma validate_value_bad_pattern field pat v :
  validation_pattern field = Some pat → pat ≠ "" → v ≠ "" →
  re_compile pat = None →
  validate_value field v = Raise ReError.
Proof.
  intros Hpat Hp Hv Hc. unfold validate_value. rewrite Hpat.
  destruct pat; [done |]. destruct v; [done |]. cbn [str_truthy andb].
  by rewrite Hc.
Qed.

Lemma validate_value_set field s o v :
  validate_value (set_status s (set_value o field)) v
  = validate_value field v.
Proof. reflexivity. Qed.

(** What a call on a required name does, once validation returns. *)
Lemma update_field_required form name field v ok err :
  name ∈ required_field_names →
  getattr form name = Some field →
  validate_value field v = Ok (ok, err) →
  update_field form name v =
    Ok (fst (update_completion_status
               (setattr form name
                  (set_status (if ok then VALID else INVALID)
                     (set_value (Some v) field)))),
        (ok, err)).
Proof.
  intros Hin Hget Hval. unfold update_field.
  rewrite bool_decide_eq_true_2 by done. rewrite Hget. simpl.
  by rewrite Hval.
Qed.

Lemma update_field_additional form name v :
  name ∉ required_field_names →
  update_field form name v =
    Ok (set_additional_fields
          (<[name :=
               match additional_fields form !! name with
               | None => mkPropertyField VALID (Some v)
                           ("Additional field: " ++ name)%string [v] None
               | Some field => set_status VALID (set_value (Some v) field)
               end]> (additional_fields form)) form,
        (true, None)).
Proof.
  intros Hin. unfold update_field.
  rewrite bool_decide_eq_false_2 by done.
  by destruct (additional_fields form !! name).
Qed.

Lemma is_complete_set_form_complete b form :
  is_complete (set_form_complete b form) = is_complete form.
Proof. reflexivity. Qed.

(** The cached flag agrees with [is_complete] after every call that
    returns, whatever the name. *)
Lemma update_field_keeps_cache form name v form' r :
  form_complete form = is_complete form →
  update_field form name v = Ok (form', r) →
  form_complete form' = is_complete form'.
Proof.
  intros Hinv Hup.
  destruct (decide (name ∈ required_field_names)) as [Hin | Hin].
  - destruct (getattr_required form name Hin) as [field Hget].
    destruct (validate_value field v) as [[ok err] | e] eqn:Hval.
    + rewrite (update_field_required _ _ _ _ _ _ Hin Hget Hval) in Hup.
      by injection Hup as <- _.
    + unfold update_field in Hup.
      rewrite bool_decide_eq_true_2, Hget in Hup by done. simpl in Hup.
      by rewrite Hval in Hup.
  - rewrite update_field_additional in Hup by done.
    by injection Hup as <- _.
Qed.

Lemma setattr_patternless form name field :
  patternless form → validation_pattern field = None →
  patternless (setattr form name field).
Proof.
  unfold patternless, setattr. intros (? & ? & ? & ?) ?.
  repeat case_decide; simpl; auto.
Qed.

Lemma getattr_patternless form name field :
  patternless form → getattr form name = Some field →
  validation_pattern field = None.
Proof.
  unfold patternless, getattr. intros (? & ? & ? & ?).
  repeat case_decide; intros [= <-]; auto.
Qed.

(** On a form without patterns a call always returns, and the form stays
    without patterns. *)
Lemma update_field_patternless form name v :
  patternless form →
  ∃ form' r, update_field form name v = Ok (form', r) ∧ patternless form'.
Proof.
  intros Hp.
  destruct (decide (name ∈ required_field_names)) as [Hin | Hin].
  - destruct (getattr_required form name Hin) as [field Hget].
    pose proof (getattr_patternless _ _ _ Hp Hget) as Hnone.
    pose proof (validate_value_no_pattern field v Hnone) as Hval.
    rewrite (update_field_required _ _ _ _ _ _ Hin Hget Hval).
    eexists _, _. split; [reflexivity |].
    simpl. apply (setattr_patternless form name); by auto.
  - rewrite update_field_additional by done.
    eexists _, _. split; [reflexivity | exact Hp].
Qed.

Lemma update_fields_invariant calls : ∀ form,
  patternless form → form_complete form = is_complete form →
  ∃ form', update_fields form calls = Ok form'
           ∧ patternless form' ∧ form_complete form' = is_complete form'.
Proof.
  induction calls as [| [name v] calls IH]; intros form Hp Hc.
  - by exists form.
  - destruct (update_field_patternless form name v Hp)
      as (form1 & r & Hup & Hp1).
    pose proof (update_field_keeps_cache _ _ _ _ _ Hc Hup) as Hc1.
    destruct (IH form1 Hp1 Hc1) as (form' & Hrun & ?).
    exists form'. split; [| done].
    simpl. by rewrite Hup.
Qed.

End ModelFacts.

(** ** Completeness and missing fields *)

(** An empty form, then a budget: the form is not complete and the three
    other fields are missing. *)
Example budget_only :
  ∃ form,
    @update_field literal_runtime PropertyFormModel_new "budget" "20000 USD"
      = Ok (form, (true, None))
    ∧ is_complete form = false
    ∧ get_missing_fields form = ["total_size"; "real_estate_type"; "city"].
Proof. eexists. by split; [reflexivity |]. Qed.

(** The four required fields set: the form is complete and nothing is
    missing. *)
Example all_four_set :
  ∃ form,
    @update_fields literal_runtime PropertyFormModel_new
      [("budget", "20000 USD"); ("total_size", "500 m2");
       ("real_estate_type", "office"); ("city", "Mexico City")]
      = Ok form
    ∧ is_complete form = true ∧ form_complete form = true
    ∧ get_missing_fields form = [].
Proof. eexists. by split; [reflexivity |]. Qed.

(** C1. Starting from a freshly created form (the four required fields
    NOT_PROVIDED, [form_complete] false), every sequence of [update_field]
    calls returns, and in the form it leaves the cached flag
    [form_complete] is true if and only if the four required fields have
    status VALID, and equals [is_complete()]. *)
Theorem form_complete_iff_all_valid `{PyRuntime}
    (calls : list (string * string)) :
  status <$> [budget PropertyFormModel_new; total_size PropertyFormModel_new;
              real_estate_type PropertyFormModel_new;
              city PropertyFormModel_new]
    = [NOT_PROVIDED; NOT_PROVIDED; NOT_PROVIDED; NOT_PROVIDED]
  ∧ form_complete PropertyFormModel_new = false
  ∧ ∃ form, update_fields PropertyFormModel_new calls = Ok form
      ∧ (form_complete form = true ↔ all_required_valid form)
      ∧ form_complete form = is_complete form.
Proof.
  split; [reflexivity |]. split; [reflexivity |].
  destruct (update_fields_invariant calls PropertyFormModel_new)
    as (form & Hrun & _ & Hc); [by repeat split | reflexivity |].
  exists form. split; [exact Hrun |]. split; [| exact Hc].
  rewrite Hc. apply is_complete_true.
Qed.

(** C4. For every form, [get_missing_fields()] is the list
    ["budget"; "total_size"; "real_estate_type"; "city"] restricted, in
    that order, to the required fields whose status is not VALID. *)
Theorem get_missing_fields_exact (form : PropertyFormModel) :
  get_missing_fields form
  = List.filter (is_missing form)
      ["budget"; "total_size"; "real_estate_type"; "city"].
Proof.
  unfold get_missing_fields, is_missing. simpl.
  by repeat case_bool_decide.
Qed.

(** ** Validation of a single value *)

(** C3. [validate_value] is a function of the field's pattern and the
    value, with nothing but its result (the embedding has no state for
    it to change).  With no pattern set, or an empty value, the result is
    [(True, None)].  With a pattern set that compiles and a non-empty
    value, it succeeds if and only if the pattern matches the value from
    its start, and the message of a failure is the fixed generic one. *)
Theorem validate_value_pure_check `{PyRuntime}
    (field : PropertyField) (v : string) :
  (validation_pattern field = None ∨ v = "" →
     validate_value field v = Ok (true, None))
  ∧ (∀ pat matched,
       validation_pattern field = Some pat → v ≠ "" →
       re_match pat v = Some matched →
       ∃ ok err, validate_value field v = Ok (ok, err)
         ∧ (ok = true ↔ matched = true)
         ∧ err = if ok then None else Some pattern_mismatch_message).
Proof.
  split.
  - unfold validate_value. intros [-> | ->]; [done |].
    destruct (validation_pattern field) as [pat |]; [| done].
    by rewrite andb_false_r.
  - intros pat matched Hpat Hv Hm. unfold validate_value. rewrite Hpat.
    unfold re_match in Hm.
    destruct pat as [| c pat].
    + destruct re_compile_empty as (p0 & Hc & Hall).
      rewrite Hc in Hm. simpl in Hm. rewrite Hall in Hm.
      injection Hm as <-. by exists true, None.
    + destruct v as [| d v]; [done |]. simpl.
      destruct (re_compile (String c pat)) as [pattern |]; [| done].
      simpl in Hm. injection Hm as <-.
      destruct (Pattern_match pattern (String d v)); simpl.
      * by exists true, None.
      * exists false, (Some pattern_mismatch_message).
        repeat split; done.
Qed.

Lemma validate_value_pure_check_witness :
  @validate_value literal_runtime letters_field "" = Ok (true, None)
  ∧ ∃ ok err, @validate_value literal_runtime letters_field "xyz" = Ok (ok, err)
      ∧ (ok = true ↔ false = true)
      ∧ err = if ok then None else Some pattern_mismatch_message.
Proof.
  destruct (@validate_value_pure_check literal_runtime letters_field "")
    as [Hempty _].
  destruct (@validate_value_pure_check literal_runtime letters_field "xyz")
    as [_ Hmatch].
  split.
  - apply Hempty. by right.
  - apply (Hmatch "ab" false); [reflexivity | discriminate | reflexivity].
Defined.

(** ** Updates of additional fields *)

(** C5. For a name that is not one of the four required names,
    [update_field(name, value)] returns [(True, None)] and leaves the
    additional field of that name with status VALID and the given value;
    when the name was new, the created field has the description
    ["Additional field: " + name] and the examples [[value]]. *)
Theorem additional_field_never_validated `{PyRuntime}
    (form : PropertyFormModel) (name v : string) :
  name ∉ required_field_names →
  ∃ form' field,
    update_field form name v = Ok (form', (true, None))
    ∧ additional_fields form' !! name = Some field
    ∧ status field = VALID ∧ value field = Some v
    ∧ (additional_fields form !! name = None →
         description field = ("Additional field: " ++ name)%string
         ∧ examples field = [v]).
Proof.
  intros Hin. rewrite update_field_additional by done.
  eexists _, _. split; [reflexivity |]. simpl.
  split; [apply lookup_insert_eq |].
  destruct (additional_fields form !! name); [| done].
  by repeat split.
Qed.

Lemma additional_field_never_validated_witness :
  ("parking" ∉ required_field_names)
  ∧ ∃ form' field,
      @update_field literal_runtime PropertyFormModel_new "parking" "yes"
        = Ok (form', (true, None))
      ∧ additional_fields form' !! "parking" = Some field
      ∧ status field = VALID ∧ value field = Some "yes"
      ∧ (additional_fields PropertyFormModel_new !! "parking" = None →
           description field = "Additional field: parking"
           ∧ examples field = ["yes"]).
Proof.
  assert ("parking" ∉ required_field_names) as Hnot.
  { apply (proj1 (bool_decide_eq_false ("parking" ∈ required_field_names))).
    reflexivity. }
  split; [exact Hnot |].
  exact (@additional_field_never_validated literal_runtime
           PropertyFormModel_new "parking" "yes" Hnot).
Defined.

(** ** Updates of required fields *)

Lemma getattr_update_completion_status form name :
  getattr (fst (update_completion_status form)) name = getattr form name.
Proof. reflexivity. Qed.

Lemma is_complete_false_by_field form name field :
  getattr form name = Some field → status field ≠ VALID →
  is_complete form = false.
Proof.
  intros Hget Hst. apply not_true_is_false. intros Hc.
  apply is_complete_true in Hc as (? & ? & ? & ?).
  unfold getattr in Hget.
  repeat case_decide; try discriminate; injection Hget as <-; done.
Qed.

(** C7. When the value supplied for a required field fails the field's
    pattern validation, [update_field] still assigns the value and the
    status INVALID to the field, recomputes [form_complete] (false, with
    this field invalid) and returns [(False, message)]. *)
Theorem rejected_value_is_persisted `{PyRuntime}
    (form : PropertyFormModel) (name v : string) (field : PropertyField)
    (err : option string) :
  name ∈ required_field_names →
  getattr form name = Some field →
  validate_value field v = Ok (false, err) →
  ∃ form',
    update_field form name v = Ok (form', (false, err))
    ∧ getattr form' name
      = Some (set_status INVALID (set_value (Some v) field))
    ∧ form_complete form' = is_complete form'
    ∧ form_complete form' = false
    ∧ err = Some pattern_mismatch_message.
Proof.
  intros Hin Hget Hval.
  assert (err = Some pattern_mismatch_message) as Herr.
  { unfold validate_value in Hval. repeat case_match; congruence. }
  rewrite (update_field_required _ _ _ _ _ _ Hin Hget Hval).
  eexists. split; [reflexivity |].
  rewrite getattr_update_completion_status, getattr_setattr by done.
  split; [reflexivity |].
  assert (is_complete
            (setattr form name
               (set_status INVALID (set_value (Some v) field))) = false)
    as Hfalse.
  { eapply is_complete_false_by_field;
      [by apply getattr_setattr | discriminate]. }
  simpl. rewrite Hfalse. by repeat split.
Qed.

Lemma rejected_value_is_persisted_witness :
  ("city" ∈ required_field_names)
  ∧ getattr city_pattern_form "city" = Some (city city_pattern_form)
  ∧ @validate_value literal_runtime (city city_pattern_form) "Berlin"
    = Ok (false, Some pattern_mismatch_message)
  ∧ ∃ form',
      @update_field literal_runtime city_pattern_form "city" "Berlin"
        = Ok (form', (false, Some pattern_mismatch_message))
      ∧ getattr form' "city"
        = Some (set_status INVALID
                  (set_value (Some "Berlin") (city city_pattern_form)))
      ∧ form_complete form' = is_complete form'
      ∧ form_complete form' = false
      ∧ Some pattern_mismatch_message = Some pattern_mismatch_message.
Proof.
  assert ("city" ∈ required_field_names) as Hin.
  { apply (bool_decide_unpack _). reflexivity. }
  split; [exact Hin |]. split; [reflexivity |]. split; [reflexivity |].
  exact (@rejected_value_is_persisted literal_runtime city_pattern_form
           "city" "Berlin" (city city_pattern_form)
           (Some pattern_mismatch_message) Hin eq_refl eq_refl).
Defined.

(** C2, as the code has it.  The pattern [a] does not match the empty
    string, so it requires a non-empty input; yet
    [update_field("city", "")] returns [(True, None)] and the status
    becomes VALID, not INVALID. *)
Lemma empty_city_is_not_rejected :
  @re_match literal_runtime "a" "" = Some false
  ∧ validation_pattern (city city_pattern_form) = Some "a"
  ∧ ∃ form',
      @update_field literal_runtime city_pattern_form "city" ""
        = Ok (form', (true, None))
      ∧ status (city form') = VALID
      ∧ status (city form') ≠ INVALID
      ∧ ∀ form'' msg,
          @update_field literal_runtime city_pattern_form "city" ""
            ≠ Ok (form'', (false, msg)).
Proof.
  split; [reflexivity |]. split; [reflexivity |].
  eexists. split; [reflexivity |].
  repeat split; [discriminate | intros form'' msg; discriminate].
Qed.

(** C2, amended.  Whatever the pattern of the city field,
    [update_field("city", "")] returns [(True, None)], sets the status of
    the field to VALID and stores the empty string as its value. *)
Theorem empty_value_is_accepted `{PyRuntime} (form : PropertyFormModel) :
  ∃ form',
    update_field form "city" "" = Ok (form', (true, None))
    ∧ status (city form') = VALID
    ∧ value (city form') = Some "".
Proof.
  assert (validate_value (city form) "" = Ok (true, None)) as Hval.
  { apply validate_value_empty. }
  eexists. split.
  - apply (update_field_required form "city" (city form));
      [set_solver | reflexivity | exact Hval].
  - by split.
Qed.

(** ** Serialisation *)

Lemma validate_strs_dump (l : list string) :
  validate_strs (VStr <$> l) = Ok l.
Proof.
  induction l as [| s l IH]; [done |].
  rewrite fmap_cons. cbn [validate_strs]. by rewrite IH.
Qed.

Lemma validate_optional_str_dump (o : option string) :
  validate_optional_str (Some (dump_optional_str o)) = Ok o.
Proof. by destruct o. Qed.

Lemma validate_status_dump (s : FieldStatus) :
  validate_status (Some (VStr (FieldStatus_value s))) = Ok s.
Proof. by destruct s. Qed.

(** Lookups of literal keys in a dictionary built by insertions. *)
Ltac lookup_keys :=
  rewrite !lookup_insert;
  repeat first [rewrite decide_True by done | rewrite decide_False by done];
  cbv beta iota.

Lemma PropertyField_roundtrip (field : PropertyField) :
  PropertyField_model_validate (PropertyField_model_dump field) = Ok field.
Proof.
  destruct field as [st val descr ex pat].
  unfold PropertyField_model_validate, PropertyField_model_dump.
  cbn [status value description examples validation_pattern].
  lookup_keys.
  rewrite validate_status_dump, !validate_optional_str_dump.
  unfold validate_str, validate_str_list. rewrite validate_strs_dump.
  reflexivity.
Qed.

Lemma validate_additional_fields_dump (m : gmap string PropertyField) :
  validate_additional_fields (Some (VDict (PropertyField_model_dump <$> m)))
  = Ok m.
Proof.
  unfold validate_additional_fields.
  rewrite bool_decide_eq_true_2.
  - f_equal. apply map_eq. intros name.
    rewrite lookup_omap, lookup_fmap.
    destruct (m !! name) as [field |]; [| done].
    change (to_option (PropertyField_model_validate
                         (PropertyField_model_dump field)) = Some field).
    by rewrite PropertyField_roundtrip.
  - apply map_Forall_fmap. intros name field _.
    change (Is_true (is_Ok (PropertyField_model_validate
                              (PropertyField_model_dump field)))).
    by rewrite PropertyField_roundtrip.
Qed.

Lemma model_roundtrip (form : PropertyFormModel) :
  model_validate (model_dump form) = Ok form.
Proof.
  destruct form as [b ts ret c add fc].
  unfold model_validate, model_dump, validate_field_or.
  cbn [budget total_size real_estate_type city additional_fields
       form_complete].
  lookup_keys.
  rewrite !PropertyField_roundtrip, validate_additional_fields_dump.
  reflexivity.
Qed.

Section AdapterFacts.
Context `{PyRuntime}.
Import state_management.

(** Loading from a state that holds a form entry reads the entry and
    leaves the state as it is. *)
Lemma get_form_from_state_present (state : State) v :
  state !! "property_form" = Some v →
  get_form_from_state state = (state, model_validate v).
Proof.
  intros Hv. unfold get_form_from_state, initialize_form_in_state.
  unfold mbind, Session_bind. rewrite Hv. simpl. by rewrite Hv.
Qed.

(** Loading from a state without a form entry writes the new form and
    returns it. *)
Lemma get_form_from_state_absent (state : State) :
  state !! "property_form" = None →
  get_form_from_state state
  = (<["property_form" := model_dump PropertyFormModel_new]> state,
     Ok PropertyFormModel_new).
Proof.
  intros Hv. unfold get_form_from_state, initialize_form_in_state.
  unfold mbind, Session_bind. rewrite Hv. simpl.
  rewrite lookup_insert_eq. unfold lift. by rewrite model_roundtrip.
Qed.

(** A successful load leaves a state that a further load reads back
    unchanged. *)
Lemma get_form_from_state_again (state state' : State) form :
  get_form_from_state state = (state', Ok form) →
  get_form_from_state state' = (state', Ok form).
Proof.
  destruct (state !! "property_form") as [v |] eqn:Hv.
  - rewrite (get_form_from_state_present _ _ Hv). intros [= <- Hval].
    by rewrite (get_form_from_state_present _ _ Hv), Hval.
  - rewrite (get_form_from_state_absent _ Hv). intros [= <- <-].
    rewrite (get_form_from_state_present _ (model_dump PropertyFormModel_new))
      by apply lookup_insert_eq.
    by rewrite model_roundtrip.
Qed.

(** A loaded form in which some field has a value was read from the
    state, not created by the load. *)
Lemma get_form_from_state_unchanged (state state' : State) form :
  get_form_from_state state = (state', Ok form) →
  form ≠ PropertyFormModel_new →
  state' = state.
Proof.
  destruct (state !! "property_form") as [v |] eqn:Hv.
  - rewrite (get_form_from_state_present _ _ Hv). by intros [= <- _].
  - rewrite (get_form_from_state_absent _ Hv). by intros [= _ <-].
Qed.

End AdapterFacts.

(** C8. For every form, saving it to the session state with
    [update_form_in_state] and loading it back with [get_form_from_state]
    yields the same form: the values and statuses of the required and of
    the additional fields, and everything else in it, are those that were
    saved. *)
Theorem save_then_load `{PyRuntime} (state : State)
    (form : PropertyFormModel) :
  ∃ state' loaded,
    state_management.update_form_in_state form state = (state', Ok tt)
    ∧ state_management.get_form_from_state state' = (state', Ok loaded)
    ∧ loaded = form
    ∧ (∀ name, value <$> getattr loaded name = value <$> getattr form name)
    ∧ (∀ name, status <$> getattr loaded name = status <$> getattr form name)
    ∧ (∀ name, value <$> additional_fields loaded !! name
               = value <$> additional_fields form !! name)
    ∧ (∀ name, status <$> additional_fields loaded !! name
               = status <$> additional_fields form !! name).
Proof.
  exists (<["property_form" := model_dump form]> state), form.
  split; [reflexivity |]. split; [| done].
  rewrite (get_form_from_state_present _ (model_dump form))
    by apply lookup_insert_eq.
  by rewrite model_roundtrip.
Qed.

(** ** The tools *)

Section ToolFacts.
Context `{PyRuntime}.
Import state_management tools.

Lemma current_value_of_new name b :
  current_value_of PropertyFormModel_new name b = None.
Proof.
  unfold current_value_of, getattr.
  destruct b; cbn [andb negb].
  - repeat case_decide; by case_bool_decide.
  - rewrite bool_decide_eq_false_2; [done |].
    cbn [additional_fields PropertyFormModel_new]. set_solver.
Qed.

Lemma current_value_of_required form name field :
  name ∈ required_field_names → getattr form name = Some field →
  current_value_of form name (bool_decide (name ∈ standard_fields))
  = value field.
Proof.
  intros Hin Hget. unfold current_value_of.
  rewrite (bool_decide_eq_true_2 (name ∈ standard_fields)) by exact Hin.
  rewrite Hget. by rewrite bool_decide_eq_true_2 by by eexists.
Qed.

Lemma current_value_of_additional form name field :
  name ∉ required_field_names →
  additional_fields form !! name = Some field →
  current_value_of form name (bool_decide (name ∈ standard_fields))
  = value field.
Proof.
  intros Hin Hget. unfold current_value_of.
  rewrite (bool_decide_eq_false_2 (name ∈ standard_fields)) by exact Hin.
  cbn [andb negb].
  rewrite bool_decide_eq_true_2 by (apply elem_of_dom; by eexists).
  by rewrite Hget.
Qed.

(** The short cut of [extract_field]: when the value read from the
    loaded form is the incoming one, the call reports "unchanged" and
    the state is the one it was given. *)
Lemma extract_field_short_cut (state state' : State) form field_name v :
  get_form_from_state state = (state', Ok form) →
  current_value_of form (normalize field_name)
    (bool_decide (normalize field_name ∈ standard_fields)) = Some v →
  extract_field field_name v state
  = (state, Ok (Unchanged (normalize field_name) v
                  "Field already has this value")).
Proof.
  intros Hget Hcur.
  assert (state' = state) as ->.
  { apply (get_form_from_state_unchanged _ _ form Hget).
    intros ->. by rewrite current_value_of_new in Hcur. }
  unfold extract_field, mbind, Session_bind. rewrite Hget, Hcur.
  by rewrite bool_decide_eq_true_2.
Qed.

(** A load writes no other key than the form's. *)
Lemma get_form_from_state_other_keys (state state' : State) r key :
  get_form_from_state state = (state', r) → key ≠ "property_form" →
  state' !! key = state !! key.
Proof.
  intros Hget Hkey.
  destruct (state !! "property_form") as [v |] eqn:Hv.
  - rewrite (get_form_from_state_present _ _ Hv) in Hget.
    by injection Hget as <- _.
  - rewrite (get_form_from_state_absent _ Hv) in Hget.
    injection Hget as <- _. by rewrite lookup_insert_ne.
Qed.

(** [check_form_status] once the first load returns. *)
Lemma check_form_status_loaded (state state' : State) form :
  get_form_from_state state = (state', Ok form) →
  check_form_status state
  = (state',
     Ok (mkFormStatus (is_complete form)
           (property_form.get_missing_fields form)
           (default (VInt 0) (state' !! "form_validation_count")))).
Proof.
  intros Hget.
  pose proof (get_form_from_state_again _ _ _ Hget) as Hagain.
  unfold check_form_status, state_management.get_missing_fields,
    is_form_complete, mbind, Session_bind.
  rewrite Hget. cbv beta iota. unfold mret, Session_ret.
  rewrite Hagain. cbv beta iota. by rewrite Hagain.
Qed.

Lemma check_form_status_raises (state state' : State) e :
  get_form_from_state state = (state', Raise e) →
  check_form_status state = (state', Raise e).
Proof.
  intros Hget.
  unfold check_form_status, state_management.get_missing_fields,
    mbind, Session_bind.
  by rewrite Hget.
Qed.

(** After a call that returns, the named field holds the value. *)
Lemma update_field_stores form name v form1 r :
  update_field form name v = Ok (form1, r) →
  ∃ field, stored_field form1 name = Some field ∧ value field = Some v.
Proof.
  intros Hup. unfold stored_field.
  destruct (decide (name ∈ required_field_names)) as [Hin | Hin].
  - rewrite bool_decide_eq_true_2 by done.
    destruct (getattr_required form name Hin) as [field Hget].
    destruct (validate_value field v) as [[ok err] | e] eqn:Hval.
    + rewrite (update_field_required _ _ _ _ _ _ Hin Hget Hval) in Hup.
      injection Hup as <- _. eexists.
      split; [exact (getattr_setattr form name _ Hin) | reflexivity].
    + unfold update_field in Hup.
      rewrite bool_decide_eq_true_2, Hget in Hup by done.
      cbn [mbind Result_bind] in Hup. by rewrite Hval in Hup.
  - rewrite bool_decide_eq_false_2 by done.
    rewrite update_field_additional in Hup by done.
    injection Hup as <- _. cbn [additional_fields set_additional_fields].
    rewrite lookup_insert_eq. eexists. split; [reflexivity |].
    by destruct (additional_fields form !! name).
Qed.

Lemma current_value_of_stored form name field :
  stored_field form name = Some field →
  current_value_of form name (bool_decide (name ∈ standard_fields))
  = value field.
Proof.
  unfold stored_field. case_bool_decide.
  - by apply current_value_of_required.
  - by apply current_value_of_additional.
Qed.

(** [update_field_in_form] once the load and the update return: the
    updated form is saved, whatever the validity. *)
Lemma update_field_in_form_saves (state state' : State) form name v form1 r :
  get_form_from_state state = (state', Ok form) →
  update_field form name v = Ok (form1, r) →
  update_field_in_form name v state
  = (<["property_form" := model_dump form1]> state', Ok r).
Proof.
  intros Hget Hup.
  unfold update_field_in_form, mbind, Session_bind.
  rewrite Hget. cbv beta iota. unfold lift. rewrite Hup.
  by destruct r.
Qed.

(** [extract_field] off the short cut: the updated form is saved and the
    outcome of the update is reported. *)
Lemma extract_field_updates (state state' : State) form field_name v
    form1 ok err :
  get_form_from_state state = (state', Ok form) →
  current_value_of form (normalize field_name)
    (bool_decide (normalize field_name ∈ standard_fields)) ≠ Some v →
  update_field form (normalize field_name) v = Ok (form1, (ok, err)) →
  extract_field field_name v state
  = (<["property_form" := model_dump form1]> state',
     Ok (if ok
         then Success (normalize field_name) v
                (bool_decide (normalize field_name ∈ standard_fields))
         else Error (normalize field_name) v
                match err with
                | Some msg =>
                    if str_truthy msg then msg else "Validation failed"
                | None => "Validation failed"
                end)).
Proof.
  intros Hget Hcur Hup.
  pose proof (get_form_from_state_again _ _ _ Hget) as Hagain.
  unfold extract_field, mbind at 1, Session_bind at 1.
  rewrite Hget. cbv beta iota zeta.
  rewrite bool_decide_eq_false_2 by exact Hcur.
  unfold mbind, Session_bind.
  rewrite (update_field_in_form_saves _ _ _ _ _ _ _ Hagain Hup).
  by destruct ok.
Qed.

(** A call of [extract_field] that returns is followed by the short cut:
    the same call again reports "unchanged" and writes nothing. *)
Lemma extract_field_repeated (state state1 : State) field_name v r1 :
  extract_field field_name v state = (state1, Ok r1) →
  extract_field field_name v state1
  = (state1, Ok (Unchanged (normalize field_name) v
                   "Field already has this value")).
Proof.
  intros Hfirst.
  destruct (get_form_from_state state) as [state' [form | e]] eqn:Hget.
  2: { unfold extract_field, mbind, Session_bind in Hfirst.
       by rewrite Hget in Hfirst. }
  pose proof (get_form_from_state_again _ _ _ Hget) as Hagain.
  destruct (decide (current_value_of form (normalize field_name)
                      (bool_decide (normalize field_name ∈ standard_fields))
                    = Some v)) as [Hcur | Hcur].
  - rewrite (extract_field_short_cut _ _ _ _ _ Hget Hcur) in Hfirst.
    injection Hfirst as <- _.
    exact (extract_field_short_cut _ _ _ _ _ Hget Hcur).
  - destruct (update_field form (normalize field_name) v)
      as [[form1 [ok err]] | e] eqn:Hup.
    + rewrite (extract_field_updates _ _ _ _ _ _ _ _ Hget Hcur Hup) in Hfirst.
      injection Hfirst as <- _.
      destruct (update_field_stores _ _ _ _ _ Hup) as (field & Hst & Hv).
      apply (extract_field_short_cut _
               (<["property_form" := model_dump form1]> state') form1).
      * rewrite (get_form_from_state_present _ (model_dump form1))
          by apply lookup_insert_eq.
        by rewrite model_roundtrip.
      * rewrite <- Hv. by apply current_value_of_stored.
    + unfold extract_field, mbind at 1, Session_bind at 1 in Hfirst.
      rewrite Hget in Hfirst. cbv beta iota zeta in Hfirst.
      rewrite bool_decide_eq_false_2 in Hfirst by exact Hcur.
      unfold mbind, Session_bind, update_field_in_form in Hfirst.
      unfold mbind, Session_bind in Hfirst.
      rewrite Hagain in Hfirst. cbv beta iota in Hfirst.
      unfold lift in Hfirst. by rewrite Hup in Hfirst.
Qed.

End ToolFacts.

(** C6. Calling [update_field(name, v)] a second time with the same value
    leaves the form exactly as the first call left it (values and statuses
    included) and returns the same pair; and [extract_field], called when
    the value stored for the named field is the incoming one, returns the
    status "unchanged" and leaves the session state as it was.  This is
    the case of every call of [extract_field] that repeats the call before
    it. *)
Theorem same_value_twice `{PyRuntime} :
  (∀ form name v form1 r,
     update_field form name v = Ok (form1, r) →
     update_field form1 name v = Ok (form1, r))
  ∧ (∀ (state state' : State) form field_name v field,
       state_management.get_form_from_state state = (state', Ok form) →
       stored_field form (tools.normalize field_name) = Some field →
       value field = Some v →
       ∃ r, tools.extract_field field_name v state = (state, Ok r)
            ∧ result_status r = "unchanged")
  ∧ (∀ (state state1 : State) field_name v r1,
       tools.extract_field field_name v state = (state1, Ok r1) →
       ∃ r2, tools.extract_field field_name v state1 = (state1, Ok r2)
             ∧ result_status r2 = "unchanged").
Proof.
  split; [| split].
  - intros form name v form1 r Hup.
    destruct (decide (name ∈ required_field_names)) as [Hin | Hin].
    + destruct (getattr_required form name Hin) as [field Hget].
      destruct (validate_value field v) as [[ok err] | e] eqn:Hval.
      * rewrite (update_field_required _ _ _ _ _ _ Hin Hget Hval) in Hup.
        injection Hup as <- <-.
        rewrite (update_field_required _ name
                   (set_status (if ok then VALID else INVALID)
                      (set_value (Some v) field)) v ok err Hin).
        -- clear Hget Hval. by required_cases Hin.
        -- exact (getattr_setattr form name _ Hin).
        -- by rewrite validate_value_set.
      * unfold update_field in Hup.
        rewrite bool_decide_eq_true_2, Hget in Hup by done.
        cbn [mbind Result_bind] in Hup. by rewrite Hval in Hup.
    + rewrite update_field_additional in Hup by done.
      injection Hup as <- <-.
      rewrite update_field_additional by done.
      cbn [additional_fields set_additional_fields].
      rewrite lookup_insert_eq, insert_insert_eq.
      by destruct (additional_fields form !! name).
  - intros state state' form field_name v field Hget Hstored Hv.
    assert (tools.current_value_of form (tools.normalize field_name)
              (bool_decide
                 (tools.normalize field_name ∈ tools.standard_fields))
            = Some v) as Hcur.
    { unfold stored_field in Hstored. rewrite <- Hv. case_bool_decide.
      - by apply current_value_of_required.
      - by apply current_value_of_additional. }
    eexists. split.
    + exact (extract_field_short_cut state state' form _ _ Hget Hcur).
    + reflexivity.
  - intros state state1 field_name v r1 Hfirst.
    eexists. split.
    + exact (extract_field_repeated _ _ _ _ _ Hfirst).
    + reflexivity.
Qed.

Lemma same_value_twice_witness :
  @update_field literal_runtime city_pattern_form "city" "Berlin"
    = Ok (invalid_city_form, (false, Some pattern_mismatch_message))
  ∧ @update_field literal_runtime invalid_city_form "city" "Berlin"
    = Ok (invalid_city_form, (false, Some pattern_mismatch_message))
  ∧ state_management.get_form_from_state invalid_city_state
    = (invalid_city_state, Ok invalid_city_form)
  ∧ stored_field invalid_city_form (@tools.normalize literal_runtime "City")
    = Some (city invalid_city_form)
  ∧ value (city invalid_city_form) = Some "Berlin"
  ∧ (∃ r, @tools.extract_field literal_runtime "City" "Berlin"
            invalid_city_state = (invalid_city_state, Ok r)
          ∧ result_status r = "unchanged")
  ∧ @tools.extract_field literal_runtime "City" "Berlin" city_pattern_state
    = (invalid_city_state,
       Ok (Error "city" "Berlin" pattern_mismatch_message))
  ∧ ∃ r2, @tools.extract_field literal_runtime "City" "Berlin"
            invalid_city_state = (invalid_city_state, Ok r2)
          ∧ result_status r2 = "unchanged".
Proof.
  destruct (@same_value_twice literal_runtime) as (Hmodel & Htool & Hrepeat).
  assert (@update_field literal_runtime city_pattern_form "city" "Berlin"
          = Ok (invalid_city_form, (false, Some pattern_mismatch_message)))
    as Hfirst by reflexivity.
  assert (state_management.get_form_from_state invalid_city_state
          = (invalid_city_state, Ok invalid_city_form))
    as Hload by (vm_compute; reflexivity).
  assert (@tools.extract_field literal_runtime "City" "Berlin"
            city_pattern_state
          = (invalid_city_state,
             Ok (Error "city" "Berlin" pattern_mismatch_message)))
    as Hcall by (vm_compute; reflexivity).
  split; [exact Hfirst |].
  split; [exact (Hmodel _ _ _ _ _ Hfirst) |].
  split; [exact Hload |].
  split; [reflexivity |]. split; [reflexivity |].
  split.
  - exact (Htool invalid_city_state invalid_city_state invalid_city_form
             "City" "Berlin" (city invalid_city_form)
             Hload eq_refl eq_refl).
  - split; [exact Hcall |].
    exact (Hrepeat _ _ _ _ _ Hcall).
Defined.

(** C10. In every state in which the normalised name is a required field
    whose stored value is the incoming one, [extract_field] returns the
    status "unchanged", not an error, whatever the validation status of
    the field, INVALID included, and the session state is left as it
    was. *)
Theorem stored_value_short_cut_ignores_status `{PyRuntime}
    (state state' : State) (form : PropertyFormModel)
    (field_name v : string) (field : PropertyField) (s : FieldStatus) :
  state_management.get_form_from_state state = (state', Ok form) →
  tools.normalize field_name ∈ required_field_names →
  getattr form (tools.normalize field_name) = Some field →
  value field = Some v →
  status field = s →
  ∃ r, tools.extract_field field_name v state = (state, Ok r)
       ∧ r = Unchanged (tools.normalize field_name) v
               "Field already has this value"
       ∧ result_status r = "unchanged"
       ∧ result_status r ≠ "error".
Proof.
  intros Hget Hin Hfield Hv _.
  eexists. split.
  - apply (extract_field_short_cut state state' form); [exact Hget |].
    rewrite <- Hv. by apply current_value_of_required.
  - by repeat split.
Qed.

Lemma stored_value_short_cut_ignores_status_witness :
  @state_management.get_form_from_state invalid_city_state
    = (invalid_city_state, Ok invalid_city_form)
  ∧ (@tools.normalize literal_runtime "City" ∈ required_field_names)
  ∧ getattr invalid_city_form (@tools.normalize literal_runtime "City")
    = Some (city invalid_city_form)
  ∧ value (city invalid_city_form) = Some "Berlin"
  ∧ status (city invalid_city_form) = INVALID
  ∧ ∃ r, @tools.extract_field literal_runtime "City" "Berlin"
           invalid_city_state = (invalid_city_state, Ok r)
         ∧ r = Unchanged (@tools.normalize literal_runtime "City") "Berlin"
                 "Field already has this value"
         ∧ result_status r = "unchanged"
         ∧ result_status r ≠ "error".
Proof.
  assert (@state_management.get_form_from_state invalid_city_state
          = (invalid_city_state, Ok invalid_city_form))
    as Hload by (vm_compute; reflexivity).
  assert (@tools.normalize literal_runtime "City" ∈ required_field_names)
    as Hin by (apply (bool_decide_unpack _); reflexivity).
  split; [exact Hload |]. split; [exact Hin |].
  split; [reflexivity |]. split; [reflexivity |]. split; [reflexivity |].
  exact (@stored_value_short_cut_ignores_status literal_runtime
           invalid_city_state invalid_city_state invalid_city_form
           "City" "Berlin" (city invalid_city_form) INVALID
           Hload Hin eq_refl eq_refl eq_refl).
Defined.

(** ** The validation counter *)

(** A load reads and writes the form's key only. *)
Lemma get_form_from_state_frame (state state' : State) r key x :
  state_management.get_form_from_state state = (state', r) →
  key ≠ "property_form" →
  state_management.get_form_from_state (<[key := x]> state)
  = (<[key := x]> state', r).
Proof.
  intros Hget Hkey.
  destruct (state !! "property_form") as [v |] eqn:Hv.
  - rewrite (get_form_from_state_present _ _ Hv) in Hget.
    injection Hget as <- <-.
    apply get_form_from_state_present. by rewrite lookup_insert_ne.
  - rewrite (get_form_from_state_absent _ Hv) in Hget.
    injection Hget as <- <-.
    rewrite get_form_from_state_absent by by rewrite lookup_insert_ne.
    f_equal. by apply insert_insert_ne.
Qed.

(** C9, as the code has it.  Two invocations of [check_form_status] in a
    row report the same count: the second invocation has not increased
    it. *)
Lemma second_check_reports_same_count :
  validation_count <$> to_option (tools.check_form_status counted_state).2
    = Some (VInt 3)
  ∧ validation_count
      <$> to_option
            (tools.check_form_status
               (tools.check_form_status counted_state).1).2
    = Some (VInt 3).
Proof. split; by vm_compute. Qed.

(** C9, amended.  The [validation_count] that [check_form_status] returns
    is the value the session holds under [form_validation_count], 0 when
    there is none.  The tool only reads it: the counter is the same after
    the call and a further invocation returns the same report.  The count
    goes up by one with each [before_validator_cb] on a session whose
    counter is an integer, and the tool then reports that count. *)
Theorem validation_count_is_the_session_counter
    (state state' : State) (r : FormStatus) :
  tools.check_form_status state = (state', Ok r) →
  validation_count r = default (VInt 0) (state !! "form_validation_count")
  ∧ state' !! "form_validation_count" = state !! "form_validation_count"
  ∧ tools.check_form_status state' = (state', Ok r)
  ∧ ∀ n, state !! "form_validation_count" = Some (VInt n) →
      ∃ state1 state2 r2,
        form_validator.before_validator_cb state = (state1, Ok tt)
        ∧ tools.check_form_status state1 = (state2, Ok r2)
        ∧ validation_count r2 = VInt (n + 1).
Proof.
  intros Hcheck.
  destruct (state_management.get_form_from_state state)
    as [st1 [form | e]] eqn:Hget.
  2: { by rewrite (check_form_status_raises _ _ _ Hget) in Hcheck. }
  rewrite (check_form_status_loaded _ _ _ Hget) in Hcheck.
  injection Hcheck as <- <-.
  assert (st1 !! "form_validation_count" = state !! "form_validation_count")
    as Hcount by by apply (get_form_from_state_other_keys _ _ _ _ Hget).
  cbn [validation_count]. rewrite Hcount.
  split; [reflexivity |]. split; [reflexivity |]. split.
  - rewrite (check_form_status_loaded st1 st1 form)
      by exact (get_form_from_state_again _ _ _ Hget).
    by rewrite Hcount.
  - intros n Hn.
    exists (<["form_validation_count" := VInt (n + 1)]> state).
    eexists _, _. split.
    + unfold form_validator.before_validator_cb. by rewrite Hn.
    + rewrite (check_form_status_loaded _
                 (<["form_validation_count" := VInt (n + 1)]> st1) form)
        by by apply get_form_from_state_frame.
      split; [reflexivity |].
      cbn [validation_count]. by rewrite lookup_insert_eq.
Qed.

Lemma validation_count_is_the_session_counter_witness :
  tools.check_form_status counted_state
    = (<["property_form" := model_dump PropertyFormModel_new]> counted_state,
       Ok (mkFormStatus false required_field_names (VInt 3)))
  ∧ counted_state !! "form_validation_count" = Some (VInt 3)
  ∧ ∃ state1 state2 r2,
      form_validator.before_validator_cb counted_state = (state1, Ok tt)
      ∧ tools.check_form_status state1 = (state2, Ok r2)
      ∧ validation_count r2 = VInt (3 + 1).
Proof.
  assert (tools.check_form_status counted_state
          = (<["property_form" := model_dump PropertyFormModel_new]>
               counted_state,
             Ok (mkFormStatus false required_field_names (VInt 3))))
    as Hcheck by (vm_compute; reflexivity).
  assert (counted_state !! "form_validation_count" = Some (VInt 3))
    as Hcount by reflexivity.
  split; [exact Hcheck |]. split; [exact Hcount |].
  exact (proj2 (proj2 (proj2
           (validation_count_is_the_session_counter _ _ _ Hcheck)))
           3 Hcount).
Defined.

(** * Further properties *)

(** ** Updates of the form *)

Section UpdateFacts.
Context `{PyRuntime}.

Lemma getattr_setattr_ne form name other field :
  other ≠ name → getattr (setattr form name field) other = getattr form other.
Proof.
  intros Hne. unfold getattr, setattr.
  repeat case_decide; subst; try done.
Qed.

Lemma additional_fields_setattr form name field :
  additional_fields (setattr form name field) = additional_fields form.
Proof. unfold setattr. by repeat case_decide. Qed.

(** A call on a required name that returns went through validation. *)
Lemma update_field_required_inv form name v form1 r :
  name ∈ required_field_names →
  update_field form name v = Ok (form1, r) →
  ∃ field, getattr form name = Some field
    ∧ validate_value field v = Ok r
    ∧ form1 = (update_completion_status
                 (setattr form name
                    (set_status (if r.1 then VALID else INVALID)
                       (set_value (Some v) field)))).1.
Proof.
  intros Hin Hup.
  destruct (getattr_required form name Hin) as [field Hget].
  exists field. split; [exact Hget |].
  destruct (validate_value field v) as [[ok err] | e] eqn:Hval.
  - rewrite (update_field_required _ _ _ _ _ _ Hin Hget Hval) in Hup.
    by injection Hup as <- <-.
  - unfold update_field in Hup.
    rewrite bool_decide_eq_true_2, Hget in Hup by done.
    cbn [mbind Result_bind] in Hup. by rewrite Hval in Hup.
Qed.

End UpdateFacts.

(** The fields a call leaves as they are. *)
Lemma update_field_frame `{PyRuntime}
    (form form1 : PropertyFormModel) (name v : string)
    (r : bool * option string) :
  update_field form name v = Ok (form1, r) →
  ∀ other, other ≠ name → stored_field form1 other = stored_field form other.
Proof.
  intros Hup other Hne. unfold stored_field.
  destruct (decide (name ∈ required_field_names)) as [Hin | Hin].
  - destruct (update_field_required_inv _ _ _ _ _ Hin Hup)
      as (field & Hget & Hval & ->).
    cbn [fst update_completion_status]. case_bool_decide.
    + exact (getattr_setattr_ne form name other _ Hne).
    + cbn [additional_fields set_form_complete].
      by rewrite additional_fields_setattr.
  - rewrite update_field_additional in Hup by done.
    injection Hup as <- _. case_bool_decide; [done |].
    cbn [additional_fields set_additional_fields].
    by rewrite lookup_insert_ne.
Qed.

(** X1. A call of [update_field] that returns changes no field but the
    named one: every other required or additional field is as before, and
    the additional fields are those there were, with the named one when it
    is not a required name.  No field is ever removed. *)
Theorem update_field_changes_one_field `{PyRuntime}
    (form form1 : PropertyFormModel) (name v : string)
    (r : bool * option string) :
  update_field form name v = Ok (form1, r) →
  (∀ other, other ≠ name → stored_field form1 other = stored_field form other)
  ∧ (∀ other, other ≠ name →
       additional_fields form1 !! other = additional_fields form !! other)
  ∧ dom (additional_fields form1)
    = if bool_decide (name ∈ required_field_names)
      then dom (additional_fields form)
      else {[name]} ∪ dom (additional_fields form).
Proof.
  intros Hup.
  destruct (decide (name ∈ required_field_names)) as [Hin | Hin].
  - destruct (update_field_required_inv _ _ _ _ _ Hin Hup)
      as (field & Hget & Hval & ->).
    rewrite bool_decide_eq_true_2 by done.
    cbn [fst update_completion_status].
    assert (∀ f, additional_fields
                   (set_form_complete (is_complete (setattr form name f))
                      (setattr form name f))
                 = additional_fields form) as Hadd.
    { intros f. cbn [additional_fields set_form_complete].
      apply additional_fields_setattr. }
    split; [| split].
    + intros other Hne. unfold stored_field. case_bool_decide.
      * exact (getattr_setattr_ne form name other _ Hne).
      * by rewrite Hadd.
    + intros other _. by rewrite Hadd.
    + by rewrite Hadd.
  - rewrite update_field_additional in Hup by done.
    injection Hup as <- _.
    rewrite bool_decide_eq_false_2 by done.
    cbn [additional_fields set_additional_fields].
    split; [| split].
    + intros other Hne. unfold stored_field. case_bool_decide; [done |].
      cbn [additional_fields set_additional_fields].
      by rewrite lookup_insert_ne.
    + intros other Hne. by rewrite lookup_insert_ne.
    + by rewrite dom_insert_L.
Qed.

Lemma update_field_changes_one_field_witness :
  @update_field literal_runtime city_pattern_form "city" "Berlin"
    = Ok (invalid_city_form, (false, Some pattern_mismatch_message))
  ∧ (∀ other, other ≠ "city" →
       stored_field invalid_city_form other
       = stored_field city_pattern_form other)
  ∧ (∀ other, other ≠ "city" →
       additional_fields invalid_city_form !! other
       = additional_fields city_pattern_form !! other)
  ∧ dom (additional_fields invalid_city_form)
    = if bool_decide ("city" ∈ required_field_names)
      then dom (additional_fields city_pattern_form)
      else {["city"]} ∪ dom (additional_fields city_pattern_form).
Proof.
  assert (@update_field literal_runtime city_pattern_form "city" "Berlin"
          = Ok (invalid_city_form, (false, Some pattern_mismatch_message)))
    as Hup by reflexivity.
  split; [exact Hup |].
  exact (@update_field_changes_one_field literal_runtime _ _ _ _ _ Hup).
Defined.

(** X2. A call of [update_field] on a field that exists keeps its
    description, its examples and its validation pattern, and stores the
    value: the examples of an additional field stay those it was created
    with. *)
Theorem update_field_keeps_metadata `{PyRuntime}
    (form form1 : PropertyFormModel) (name v : string)
    (r : bool * option string) (field : PropertyField) :
  update_field form name v = Ok (form1, r) →
  stored_field form name = Some field →
  ∃ field1,
    stored_field form1 name = Some field1
    ∧ value field1 = Some v
    ∧ description field1 = description field
    ∧ examples field1 = examples field
    ∧ validation_pattern field1 = validation_pattern field.
Proof.
  intros Hup Hst. unfold stored_field in *.
  destruct (decide (name ∈ required_field_names)) as [Hin | Hin].
  - rewrite bool_decide_eq_true_2 in * by done.
    destruct (update_field_required_inv _ _ _ _ _ Hin Hup)
      as (field' & Hget & Hval & ->).
    rewrite Hget in Hst. injection Hst as ->.
    eexists. split; [exact (getattr_setattr form name _ Hin) |].
    by repeat split.
  - rewrite bool_decide_eq_false_2 in * by done.
    rewrite update_field_additional in Hup by done.
    injection Hup as <- _. rewrite Hst.
    cbn [additional_fields set_additional_fields].
    rewrite lookup_insert_eq. eexists. split; [reflexivity |].
    by repeat split.
Qed.

Lemma update_field_keeps_metadata_witness :
  @update_field literal_runtime invalid_city_form "city" "Lima"
    = Ok (setattr invalid_city_form "city"
            (set_status INVALID
               (set_value (Some "Lima") (city invalid_city_form))),
          (false, Some pattern_mismatch_message))
  ∧ stored_field invalid_city_form "city" = Some (city invalid_city_form)
  ∧ ∃ field1,
      stored_field
        (setattr invalid_city_form "city"
           (set_status INVALID
              (set_value (Some "Lima") (city invalid_city_form))))
        "city" = Some field1
      ∧ value field1 = Some "Lima"
      ∧ description field1 = description (city invalid_city_form)
      ∧ examples field1 = examples (city invalid_city_form)
      ∧ validation_pattern field1
        = validation_pattern (city invalid_city_form).
Proof.
  assert (@update_field literal_runtime invalid_city_form "city" "Lima"
          = Ok (setattr invalid_city_form "city"
                  (set_status INVALID
                     (set_value (Some "Lima") (city invalid_city_form))),
                (false, Some pattern_mismatch_message)))
    as Hup by reflexivity.
  split; [exact Hup |]. split; [reflexivity |].
  exact (@update_field_keeps_metadata literal_runtime _ _ _ _ _ _
           Hup eq_refl).
Defined.

(** X3. Updates of two different fields commute: done in the other
    order, the two calls return the same pairs and leave the same form. *)
Theorem update_field_commutes `{PyRuntime}
    (form form1 form12 : PropertyFormModel) (name1 v1 name2 v2 : string)
    (r1 r2 : bool * option string) :
  name1 ≠ name2 →
  update_field form name1 v1 = Ok (form1, r1) →
  update_field form1 name2 v2 = Ok (form12, r2) →
  ∃ form2,
    update_field form name2 v2 = Ok (form2, r2)
    ∧ update_field form2 name1 v1 = Ok (form12, r1).
Proof.
  intros Hne Hup1 Hup2.
  destruct (decide (name1 ∈ required_field_names)) as [Hin1 | Hin1];
    destruct (decide (name2 ∈ required_field_names)) as [Hin2 | Hin2].
  - destruct (update_field_required_inv _ _ _ _ _ Hin1 Hup1)
      as (field1 & Hget1 & Hval1 & ->).
    destruct (update_field_required_inv _ _ _ _ _ Hin2 Hup2)
      as (field2 & Hget2 & Hval2 & ->).
    rewrite getattr_update_completion_status, getattr_setattr_ne in Hget2
      by done.
    destruct r1 as [ok1 err1], r2 as [ok2 err2].
    eexists. split.
    + exact (update_field_required _ _ _ _ _ _ Hin2 Hget2 Hval2).
    + rewrite (update_field_required _ name1 field1 v1 ok1 err1 Hin1);
        [| by rewrite getattr_update_completion_status, getattr_setattr_ne
           | exact Hval1].
      clear Hget1 Hget2 Hval1 Hval2 Hup1 Hup2.
      cbn [fst].
      required_cases Hin1; required_cases Hin2; done.
  - destruct (update_field_required_inv _ _ _ _ _ Hin1 Hup1)
      as (field1 & Hget1 & Hval1 & ->).
    rewrite update_field_additional in Hup2 by done.
    injection Hup2 as <- <-.
    destruct r1 as [ok1 err1].
    eexists. split; [by apply update_field_additional |].
    rewrite (update_field_required _ name1 field1 v1 ok1 err1 Hin1);
      [| by rewrite <- Hget1 | exact Hval1].
    clear Hget1 Hval1 Hup1. cbn [fst].
    by required_cases Hin1.
  - rewrite update_field_additional in Hup1 by done.
    injection Hup1 as <- <-.
    destruct (update_field_required_inv _ _ _ _ _ Hin2 Hup2)
      as (field2 & Hget2 & Hval2 & ->).
    destruct r2 as [ok2 err2].
    assert (getattr form name2 = Some field2) as Hget2' by exact Hget2.
    eexists. split.
    + exact (update_field_required _ _ _ _ _ _ Hin2 Hget2' Hval2).
    + rewrite update_field_additional by done.
      clear Hget2 Hval2 Hup2. cbn [fst].
      by required_cases Hin2.
  - rewrite update_field_additional in Hup1 by done.
    injection Hup1 as <- <-.
    rewrite update_field_additional in Hup2 by done.
    injection Hup2 as <- <-.
    eexists. split; [by apply update_field_additional |].
    rewrite update_field_additional by done.
    cbn [additional_fields set_additional_fields].
    rewrite !lookup_insert_ne by done.
    f_equal. f_equal. unfold set_additional_fields. cbn. f_equal.
    by apply insert_insert_ne.
Qed.

Lemma update_field_commutes_witness :
  "city" ≠ "parking"
  ∧ @update_field literal_runtime city_pattern_form "city" "Berlin"
    = Ok (invalid_city_form, (false, Some pattern_mismatch_message))
  ∧ (∃ form12,
       @update_field literal_runtime invalid_city_form "parking" "yes"
         = Ok (form12, (true, None))
       ∧ ∃ form2,
           @update_field literal_runtime city_pattern_form "parking" "yes"
             = Ok (form2, (true, None))
           ∧ @update_field literal_runtime form2 "city" "Berlin"
             = Ok (form12, (false, Some pattern_mismatch_message))).
Proof.
  assert ("city" ≠ "parking") as Hne by discriminate.
  assert (@update_field literal_runtime city_pattern_form "city" "Berlin"
          = Ok (invalid_city_form, (false, Some pattern_mismatch_message)))
    as Hup1 by reflexivity.
  split; [exact Hne |]. split; [exact Hup1 |].
  eexists. split; [reflexivity |].
  exact (@update_field_commutes literal_runtime _ _ _ _ _ _ _ _ _
           Hne Hup1 eq_refl).
Defined.

(** X4. [is_complete()] and [get_missing_fields()] agree: a form is
    complete exactly when no field is missing; the missing names are
    required names, without repetition. *)
Theorem complete_iff_nothing_missing (form : PropertyFormModel) :
  (is_complete form = true ↔ get_missing_fields form = [])
  ∧ NoDup (get_missing_fields form)
  ∧ get_missing_fields form ⊆ required_field_names.
Proof.
  unfold is_complete, get_missing_fields, required_field_names.
  cbn [fields_map foldl forallb].
  destruct (status (budget form)), (status (total_size form)),
    (status (real_estate_type form)), (status (city form));
    cbn; (split; [split; by intros |]);
    (split; apply (bool_decide_unpack _); reflexivity).
Qed.

(** X5. A later update of a field that exists overrides the earlier one:
    the two calls leave the form, and return the pair, of the later call
    alone. *)
Theorem later_update_overrides `{PyRuntime}
    (form form1 form2 : PropertyFormModel) (name v1 v2 : string)
    (r1 r2 : bool * option string) :
  is_Some (stored_field form name) →
  update_field form name v1 = Ok (form1, r1) →
  update_field form1 name v2 = Ok (form2, r2) →
  update_field form name v2 = Ok (form2, r2).
Proof.
  intros [field Hst] Hup1 Hup2. unfold stored_field in Hst.
  destruct (decide (name ∈ required_field_names)) as [Hin | Hin].
  - destruct (update_field_required_inv _ _ _ _ _ Hin Hup1)
      as (field1 & Hget1 & Hval1 & ->).
    destruct (update_field_required_inv _ _ _ _ _ Hin Hup2)
      as (field2 & Hget2 & Hval2 & ->).
    rewrite getattr_update_completion_status, getattr_setattr in Hget2
      by done.
    injection Hget2 as <-. rewrite validate_value_set in Hval2.
    destruct r2 as [ok2 err2].
    rewrite (update_field_required _ _ _ _ _ _ Hin Hget1 Hval2).
    clear. cbn [fst]. f_equal. f_equal.
    unfold update_completion_status, setattr.
    repeat case_decide; done.
  - rewrite bool_decide_eq_false_2 in Hst by done.
    rewrite update_field_additional in Hup1 by done.
    injection Hup1 as <- <-.
    rewrite update_field_additional in Hup2 by done.
    injection Hup2 as <- <-.
    rewrite update_field_additional by done.
    cbn [additional_fields set_additional_fields].
    rewrite lookup_insert_eq, insert_insert_eq, Hst.
    reflexivity.
Qed.

Lemma later_update_overrides_witness :
  is_Some (stored_field city_pattern_form "city")
  ∧ @update_field literal_runtime city_pattern_form "city" "Berlin"
    = Ok (invalid_city_form, (false, Some pattern_mismatch_message))
  ∧ ∃ form2,
      @update_field literal_runtime invalid_city_form "city" "amsterdam"
        = Ok (form2, (true, None))
      ∧ @update_field literal_runtime city_pattern_form "city" "amsterdam"
        = Ok (form2, (true, None)).
Proof.
  assert (is_Some (stored_field city_pattern_form "city")) as Hsome
    by (eexists; reflexivity).
  assert (@update_field literal_runtime city_pattern_form "city" "Berlin"
          = Ok (invalid_city_form, (false, Some pattern_mismatch_message)))
    as Hup1 by reflexivity.
  assert (@update_field literal_runtime invalid_city_form "city" "amsterdam"
          = Ok (setattr invalid_city_form "city"
                  (set_status VALID
                     (set_value (Some "amsterdam")
                        (city invalid_city_form))),
                (true, None)))
    as Hup2 by reflexivity.
  split; [exact Hsome |]. split; [exact Hup1 |].
  eexists. split; [exact Hup2 |].
  exact (@later_update_overrides literal_runtime _ _ _ _ _ _ _ _
           Hsome Hup1 Hup2).
Defined.

(** X6. Empty values complete a form: whatever the patterns of its
    required fields, the four required fields updated with the empty
    string are all VALID, and the form is complete with nothing missing. *)
Theorem empty_values_complete_the_form `{PyRuntime}
    (form : PropertyFormModel) :
  ∃ form',
    update_fields form
      [("budget", ""); ("total_size", ""); ("real_estate_type", "");
       ("city", "")] = Ok form'
    ∧ is_complete form' = true ∧ form_complete form' = true
    ∧ get_missing_fields form' = []
    ∧ ∀ name field, getattr form' name = Some field → value field = Some "".
Proof.
  pose (emptied := λ field, set_status VALID (set_value (Some "") field)).
  assert (∀ f name field, name ∈ required_field_names →
            getattr f name = Some field →
            update_field f name ""
            = Ok ((update_completion_status
                     (setattr f name (emptied field))).1, (true, None)))
    as Hstep.
  { intros f name field Hin Hget.
    apply (update_field_required f name field "" true None Hin Hget).
    apply validate_value_empty. }
  exists (mkPropertyFormModel (emptied (budget form))
            (emptied (total_size form)) (emptied (real_estate_type form))
            (emptied (city form)) (additional_fields form) true).
  split.
  - cbn [update_fields].
    rewrite (Hstep _ "budget" (budget form)) by (set_solver || done).
    cbn [mbind Result_bind].
    rewrite (Hstep _ "total_size" (total_size form))
      by (set_solver || done).
    cbn [mbind Result_bind].
    rewrite (Hstep _ "real_estate_type" (real_estate_type form))
      by (set_solver || done).
    cbn [mbind Result_bind].
    rewrite (Hstep _ "city" (city form)) by (set_solver || done).
    reflexivity.
  - repeat split.
    intros name field. unfold getattr.
    repeat case_decide; intros [= <-]; reflexivity.
Qed.

(** ** The summary *)

Lemma incomplete_has_missing (form : PropertyFormModel) :
  is_complete form = false → get_missing_fields form ≠ [].
Proof.
  unfold is_complete, get_missing_fields.
  cbn [fields_map foldl forallb].
  destruct (status (budget form)), (status (total_size form)),
    (status (real_estate_type form)), (status (city form));
    cbn; by intros.
Qed.

Lemma last_summary_entries title items form :
  last (form_summary.summary_entries title items form)
  = Some (form_summary.status_entry form).
Proof.
  unfold form_summary.summary_entries.
  rewrite !app_assoc.
  change [(newline ++ "### Form Status")%string;
          form_summary.status_entry form]
    with ([(newline ++ "### Form Status")%string]
          ++ [form_summary.status_entry form])%list.
  rewrite app_assoc. apply last_snoc.
Qed.

(** X7. In the summary of a form reached from a new form by
    [update_field] calls, the last entry is the banner "All required
    fields are complete!" when the four required fields are VALID;
    otherwise it is "Waiting for:" followed by the missing names, of which
    there is at least one, each between backquotes and separated by
    commas. *)
Theorem summary_banner_follows_statuses `{PyRuntime}
    (calls : list (string * string)) (form : PropertyFormModel)
    (str_title : string → string) (items : list (string * PropertyField)) :
  update_fields PropertyFormModel_new calls = Ok form →
  ∃ banner,
    last (form_summary.summary_entries str_title items form) = Some banner
    ∧ (all_required_valid form →
         banner = (mark_valid ++ " All required fields are complete!")%string)
    ∧ (¬ all_required_valid form →
         get_missing_fields form ≠ []
         ∧ banner
           = (mark_not_provided ++ " Waiting for: "
              ++ String.concat ", "
                   (List.map (λ field, "`" ++ field ++ "`")
                      (get_missing_fields form)))%string).
Proof.
  intros Hrun.
  destruct (update_fields_invariant calls PropertyFormModel_new)
    as (form' & Hrun' & _ & Hc); [by repeat split | reflexivity |].
  rewrite Hrun in Hrun'. injection Hrun' as <-.
  exists (form_summary.status_entry form).
  split; [apply last_summary_entries |].
  unfold form_summary.status_entry. rewrite Hc. split.
  - intros Hall. apply is_complete_true in Hall. by rewrite Hall.
  - intros Hnot.
    destruct (is_complete form) eqn:Hcomplete.
    + by apply is_complete_true in Hcomplete.
    + split; [by apply incomplete_has_missing | reflexivity].
Qed.

Lemma summary_banner_follows_statuses_witness :
  ∃ form,
    @update_fields literal_runtime PropertyFormModel_new
      [("budget", "20000 USD")] = Ok form
    ∧ ∃ banner,
        last (form_summary.summary_entries (λ s, s) [] form) = Some banner
        ∧ (all_required_valid form →
             banner
             = (mark_valid ++ " All required fields are complete!")%string)
        ∧ (¬ all_required_valid form →
             get_missing_fields form ≠ []
             ∧ banner
               = (mark_not_provided ++ " Waiting for: "
                  ++ String.concat ", "
                       (List.map (λ field, "`" ++ field ++ "`")
                          (get_missing_fields form)))%string).
Proof.
  eexists. split; [reflexivity |].
  exact (@summary_banner_follows_statuses literal_runtime
           [("budget", "20000 USD")] _ (λ s, s) [] eq_refl).
Defined.

(** ** The adapter *)

(** X8. A load writes no other key than the form's, and writes that one
    only when it is absent; the form's key is there afterwards, and a
    second load returns the same outcome and changes nothing. *)
Theorem load_settles_the_state (state state' : State)
    (r : Result PropertyFormModel) :
  state_management.get_form_from_state state = (state', r) →
  (∀ key, key ≠ "property_form" → state' !! key = state !! key)
  ∧ is_Some (state' !! "property_form")
  ∧ (is_Some (state !! "property_form") → state' = state)
  ∧ state_management.get_form_from_state state' = (state', r).
Proof.
  intros Hget.
  destruct (state !! "property_form") as [v |] eqn:Hv.
  - rewrite (get_form_from_state_present _ _ Hv) in Hget.
    injection Hget as <- <-.
    repeat split; [by eexists | by apply get_form_from_state_present].
  - rewrite (get_form_from_state_absent _ Hv) in Hget.
    injection Hget as <- <-.
    split; [intros key Hkey; by rewrite lookup_insert_ne |].
    split; [rewrite lookup_insert_eq; by eexists |].
    split; [by intros [? ?] |].
    rewrite (get_form_from_state_present _ (model_dump PropertyFormModel_new))
      by apply lookup_insert_eq.
    by rewrite model_roundtrip.
Qed.

Lemma load_settles_the_state_witness :
  state_management.get_form_from_state counted_state
    = (<["property_form" := model_dump PropertyFormModel_new]> counted_state,
       Ok PropertyFormModel_new)
  ∧ (∀ key, key ≠ "property_form" →
       <["property_form" := model_dump PropertyFormModel_new]> counted_state
         !! key = counted_state !! key)
  ∧ is_Some (<["property_form" := model_dump PropertyFormModel_new]>
               counted_state !! "property_form")
  ∧ (is_Some (counted_state !! "property_form") →
       <["property_form" := model_dump PropertyFormModel_new]> counted_state
       = counted_state)
  ∧ state_management.get_form_from_state
      (<["property_form" := model_dump PropertyFormModel_new]> counted_state)
    = (<["property_form" := model_dump PropertyFormModel_new]> counted_state,
       Ok PropertyFormModel_new).
Proof.
  assert (state_management.get_form_from_state counted_state
          = (<["property_form" := model_dump PropertyFormModel_new]>
               counted_state, Ok PropertyFormModel_new))
    as Hget by (vm_compute; reflexivity).
  split; [exact Hget |].
  exact (load_settles_the_state _ _ _ Hget).
Defined.

Section AdapterToolFacts.
Context `{PyRuntime}.
Import state_management tools.

(** A load that raises found the entry in the state and left the state as
    it was. *)
Lemma get_form_from_state_raises_inv (state state' : State) e :
  get_form_from_state state = (state', Raise e) →
  state' = state
  ∧ ∃ v, state !! "property_form" = Some v ∧ model_validate v = Raise e.
Proof.
  intros Hget.
  destruct (state !! "property_form") as [v |] eqn:Hv.
  - rewrite (get_form_from_state_present _ _ Hv) in Hget.
    injection Hget as <- Hval. split; [done |]. by exists v.
  - by rewrite (get_form_from_state_absent _ Hv) in Hget.
Qed.

Lemma update_field_in_form_load_raises (state state' : State) name v e :
  get_form_from_state state = (state', Raise e) →
  update_field_in_form name v state = (state', Raise e).
Proof.
  intros Hget. unfold update_field_in_form, mbind, Session_bind.
  by rewrite Hget.
Qed.

Lemma update_field_in_form_update_raises (state state' : State)
    form name v e :
  get_form_from_state state = (state', Ok form) →
  update_field form name v = Raise e →
  update_field_in_form name v state = (state', Raise e).
Proof.
  intros Hget Hup. unfold update_field_in_form, mbind, Session_bind.
  rewrite Hget. cbv beta iota. unfold lift. by rewrite Hup.
Qed.

Lemma extract_field_load_raises (state state' : State) field_name v e :
  get_form_from_state state = (state', Raise e) →
  extract_field field_name v state = (state', Raise e).
Proof.
  intros Hget. unfold extract_field, mbind, Session_bind.
  by rewrite Hget.
Qed.

Lemma extract_field_update_raises (state state' : State) form
    field_name v e :
  get_form_from_state state = (state', Ok form) →
  current_value_of form (normalize field_name)
    (bool_decide (normalize field_name ∈ standard_fields)) ≠ Some v →
  update_field form (normalize field_name) v = Raise e →
  extract_field field_name v state = (state', Raise e).
Proof.
  intros Hget Hcur Hup.
  pose proof (get_form_from_state_again _ _ _ Hget) as Hagain.
  unfold extract_field, mbind at 1, Session_bind at 1.
  rewrite Hget. cbv beta iota zeta.
  rewrite bool_decide_eq_false_2 by exact Hcur.
  unfold mbind, Session_bind.
  by rewrite (update_field_in_form_update_raises _ _ _ _ _ _ Hagain Hup).
Qed.



(** The message of a failed validation is the generic one; a successful
    one has none. *)
Lemma validate_value_message field v ok err :
  validate_value field v = Ok (ok, err) →
  err = if ok then None else Some pattern_mismatch_message.
Proof.
  unfold validate_value. repeat case_match; congruence.
Qed.

(** The status a call leaves in the named field: VALID when it returned
    true, INVALID, on a required name, when it returned false. *)
Lemma update_field_status form name v form1 ok err :
  update_field form name v = Ok (form1, (ok, err)) →
  ∃ field, stored_field form1 name = Some field
    ∧ value field = Some v
    ∧ status field = (if ok then VALID else INVALID)
    ∧ err = (if ok then None else Some pattern_mismatch_message)
    ∧ (ok = false → name ∈ required_field_names).
Proof.
  intros Hup. unfold stored_field.
  destruct (decide (name ∈ required_field_names)) as [Hin | Hin].
  - rewrite bool_decide_eq_true_2 by done.
    destruct (update_field_required_inv _ _ _ _ _ Hin Hup)
      as (field & Hget & Hval & ->).
    eexists. split; [exact (getattr_setattr form name _ Hin) |].
    repeat split; [by apply (validate_value_message field v) | done].
  - rewrite bool_decide_eq_false_2 by done.
    rewrite update_field_additional in Hup by done.
    injection Hup as <- <- <-.
    cbn [additional_fields set_additional_fields].
    rewrite lookup_insert_eq. eexists. split; [reflexivity |].
    by destruct (additional_fields form !! name).
Qed.

End AdapterToolFacts.









(** X10. [update_field_in_form] is [update_field] between a load and a
    save: when it returns, the form loaded from the state given was
    updated by the model, the pair returned is the model's, and the next
    load returns the updated form.  When the model raises, nothing is
    saved. *)
Theorem update_field_in_form_is_load_update_save `{PyRuntime}
    (state state1 : State) (name v : string)
    (outcome : Result (bool * option string)) :
  state_management.update_field_in_form name v state = (state1, outcome) →
  (∀ r, outcome = Ok r →
     ∃ state' form form1,
       state_management.get_form_from_state state = (state', Ok form)
       ∧ update_field form name v = Ok (form1, r)
       ∧ state1 = <["property_form" := model_dump form1]> state'
       ∧ state_management.get_form_from_state state1 = (state1, Ok form1))
  ∧ (∀ e, outcome = Raise e →
       state_management.get_form_from_state state1
       = state_management.get_form_from_state state
       ∧ ∀ key, key ≠ "property_form" → state1 !! key = state !! key).
Proof.
  intros Hcall.
  destruct (state_management.get_form_from_state state)
    as [state' [form | e0]] eqn:Hget.
  - destruct (update_field form name v) as [[form1 r0] | e0] eqn:Hup.
    + rewrite (update_field_in_form_saves _ _ _ _ _ _ _ Hget Hup) in Hcall.
      injection Hcall as <- <-. split; [| by intros e [=]].
      intros r [= <-]. exists state', form, form1.
      split; [reflexivity |]. split; [exact Hup |].
      split; [reflexivity |].
      rewrite (get_form_from_state_present _ (model_dump form1))
        by apply lookup_insert_eq.
      by rewrite model_roundtrip.
    + rewrite (update_field_in_form_update_raises _ _ _ _ _ _ Hget Hup)
        in Hcall.
      injection Hcall as <- <-. split; [by intros r [=] |].
      intros e _. split.
      * exact (get_form_from_state_again _ _ _ Hget).
      * intros key Hkey.
        exact (get_form_from_state_other_keys _ _ _ _ Hget Hkey).
  - rewrite (update_field_in_form_load_raises _ _ _ _ _ Hget) in Hcall.
    injection Hcall as <- <-. split; [by intros r [=] |].
    intros e _.
    destruct (get_form_from_state_raises_inv _ _ _ Hget) as [-> _].
    by rewrite Hget.
Qed.

Lemma update_field_in_form_is_load_update_save_witness :
  @state_management.update_field_in_form literal_runtime "city" "Berlin"
    city_pattern_state
  = (invalid_city_state, Ok (false, Some pattern_mismatch_message))
  ∧ ∃ state' form form1,
      state_management.get_form_from_state city_pattern_state
      = (state', Ok form)
      ∧ @update_field literal_runtime form "city" "Berlin"
        = Ok (form1, (false, Some pattern_mismatch_message))
      ∧ invalid_city_state = <["property_form" := model_dump form1]> state'
      ∧ state_management.get_form_from_state invalid_city_state
        = (invalid_city_state, Ok form1).
Proof.
  assert (@state_management.update_field_in_form literal_runtime "city"
            "Berlin" city_pattern_state
          = (invalid_city_state, Ok (false, Some pattern_mismatch_message)))
    as Hcall by (vm_compute; reflexivity).
  split; [exact Hcall |].
  exact (proj1 (@update_field_in_form_is_load_update_save literal_runtime
                  _ _ _ _ _ Hcall) _ eq_refl).
Defined.

(** X11. What a returned [extract_field] says is what the state holds:
    after the call the field of the normalised name has the incoming
    value; "success" comes with status VALID and tells whether the name is
    a standard field; "error" comes only for a standard field, with status
    INVALID and the generic message of the pattern check; "unchanged"
    comes with the state untouched. *)
Theorem extract_field_reports_the_stored_field `{PyRuntime}
    (state state1 : State) (field_name v : string) (r : ExtractResult) :
  tools.extract_field field_name v state = (state1, Ok r) →
  ∃ form1 field,
    state_management.get_form_from_state state1 = (state1, Ok form1)
    ∧ stored_field form1 (tools.normalize field_name) = Some field
    ∧ value field = Some v
    ∧ match r with
      | Unchanged name value _ =>
          name = tools.normalize field_name ∧ value = v ∧ state1 = state
      | Success name value is_standard_field =>
          name = tools.normalize field_name ∧ value = v
          ∧ status field = VALID
          ∧ (is_standard_field = true
             ↔ tools.normalize field_name ∈ required_field_names)
      | Error name value error =>
          name = tools.normalize field_name ∧ value = v
          ∧ status field = INVALID
          ∧ error = pattern_mismatch_message
          ∧ tools.normalize field_name ∈ required_field_names
      end.
Proof.
  intros Hcall.
  destruct (state_management.get_form_from_state state)
    as [state' [form | e]] eqn:Hget.
  2: { by rewrite (extract_field_load_raises _ _ _ _ _ Hget) in Hcall. }
  destruct (decide (tools.current_value_of form (tools.normalize field_name)
                      (bool_decide (tools.normalize field_name
                                    ∈ tools.standard_fields))
                    = Some v)) as [Hcur | Hcur].
  - rewrite (extract_field_short_cut _ _ _ _ _ Hget Hcur) in Hcall.
    injection Hcall as <- <-.
    assert (state' = state) as ->.
    { apply (get_form_from_state_unchanged _ _ form Hget).
      intros ->. by rewrite current_value_of_new in Hcur. }
    unfold tools.current_value_of in Hcur. unfold stored_field.
    change tools.standard_fields with required_field_names in Hcur.
    destruct (bool_decide (tools.normalize field_name ∈ required_field_names))
      eqn:Hstd; cbn [andb negb] in Hcur.
    + destruct (getattr form (tools.normalize field_name)) as [field |]
        eqn:Hfield.
      * rewrite bool_decide_eq_true_2 in Hcur by by eexists.
        exists form, field. by repeat split.
      * by rewrite bool_decide_eq_false_2 in Hcur by by intros [? ?].
    + destruct (additional_fields form !! tools.normalize field_name)
        as [field |] eqn:Hfield.
      * rewrite bool_decide_eq_true_2 in Hcur
          by (apply elem_of_dom; by eexists).
        exists form, field. by repeat split.
      * by rewrite bool_decide_eq_false_2 in Hcur
          by (rewrite elem_of_dom, Hfield; by intros [? ?]).
  - destruct (update_field form (tools.normalize field_name) v)
      as [[form1 [ok err]] | e] eqn:Hup.
    2: { by rewrite (extract_field_update_raises _ _ _ _ _ _ Hget Hcur Hup)
           in Hcall. }
    rewrite (extract_field_updates _ _ _ _ _ _ _ _ Hget Hcur Hup) in Hcall.
    injection Hcall as <- <-.
    destruct (update_field_status _ _ _ _ _ _ Hup)
      as (field & Hst & Hv & Hstatus & Herr & Hreq).
    exists form1, field. split.
    { rewrite (get_form_from_state_present _ (model_dump form1))
        by apply lookup_insert_eq.
      by rewrite model_roundtrip. }
    split; [exact Hst |]. split; [exact Hv |].
    destruct ok.
    + repeat split; [exact Hstatus | |].
      * intros Hb. by apply bool_decide_eq_true_1 in Hb.
      * intros Hin. by apply bool_decide_eq_true_2.
    + rewrite Herr. repeat split; [exact Hstatus | by apply Hreq].
Qed.

Lemma extract_field_reports_the_stored_field_witness :
  @tools.extract_field literal_runtime "City" "Berlin" city_pattern_state
  = (invalid_city_state, Ok (Error "city" "Berlin" pattern_mismatch_message))
  ∧ ∃ form1 field,
      state_management.get_form_from_state invalid_city_state
      = (invalid_city_state, Ok form1)
      ∧ stored_field form1 (@tools.normalize literal_runtime "City")
        = Some field
      ∧ value field = Some "Berlin"
      ∧ "city" = @tools.normalize literal_runtime "City"
      ∧ "Berlin" = "Berlin"
      ∧ status field = INVALID
      ∧ pattern_mismatch_message = pattern_mismatch_message
      ∧ @tools.normalize literal_runtime "City" ∈ required_field_names.
Proof.
  assert (@tools.extract_field literal_runtime "City" "Berlin"
            city_pattern_state
          = (invalid_city_state,
             Ok (Error "city" "Berlin" pattern_mismatch_message)))
    as Hcall by (vm_compute; reflexivity).
  split; [exact Hcall |].
  exact (@extract_field_reports_the_stored_field literal_runtime
           _ _ _ _ _ Hcall).
Defined.

(** X12. A returned [extract_field] changes nothing but the named field:
    every other field of the stored form, and every other key of the
    session state, is as before the call. *)
Theorem extract_field_changes_one_field `{PyRuntime}
    (state state1 : State) (field_name v : string) (r : ExtractResult) :
  tools.extract_field field_name v state = (state1, Ok r) →
  ∃ state' form form1,
    state_management.get_form_from_state state = (state', Ok form)
    ∧ state_management.get_form_from_state state1 = (state1, Ok form1)
    ∧ (∀ other, other ≠ tools.normalize field_name →
         stored_field form1 other = stored_field form other)
    ∧ (∀ key, key ≠ "property_form" → state1 !! key = state !! key).
Proof.
  intros Hcall.
  destruct (state_management.get_form_from_state state)
    as [state' [form | e]] eqn:Hget.
  2: { by rewrite (extract_field_load_raises _ _ _ _ _ Hget) in Hcall. }
  pose proof (get_form_from_state_again _ _ _ Hget) as Hagain.
  assert (∀ key, key ≠ "property_form" → state' !! key = state !! key)
    as Hkeys.
  { intros key Hkey.
    exact (get_form_from_state_other_keys _ _ _ _ Hget Hkey). }
  exists state', form.
  destruct (decide (tools.current_value_of form (tools.normalize field_name)
                      (bool_decide (tools.normalize field_name
                                    ∈ tools.standard_fields))
                    = Some v)) as [Hcur | Hcur].
  - rewrite (extract_field_short_cut _ _ _ _ _ Hget Hcur) in Hcall.
    injection Hcall as <- _.
    assert (state' = state) as Heq.
    { apply (get_form_from_state_unchanged _ _ form Hget).
      intros ->. by rewrite current_value_of_new in Hcur. }
    subst state'. by exists form.
  - destruct (update_field form (tools.normalize field_name) v)
      as [[form1 [ok err]] | e] eqn:Hup.
    2: { by rewrite (extract_field_update_raises _ _ _ _ _ _ Hget Hcur Hup)
           in Hcall. }
    rewrite (extract_field_updates _ _ _ _ _ _ _ _ Hget Hcur Hup) in Hcall.
    injection Hcall as <- _.
    exists form1. split; [reflexivity |]. split.
    { rewrite (get_form_from_state_present _ (model_dump form1))
        by apply lookup_insert_eq.
      by rewrite model_roundtrip. }
    split.
    + exact (update_field_frame _ _ _ _ _ Hup).
    + intros key Hkey. rewrite lookup_insert_ne by done. by apply Hkeys.
Qed.

Lemma extract_field_changes_one_field_witness :
  @tools.extract_field literal_runtime "City" "Berlin" city_pattern_state
  = (invalid_city_state, Ok (Error "city" "Berlin" pattern_mismatch_message))
  ∧ ∃ state' form form1,
      state_management.get_form_from_state city_pattern_state
      = (state', Ok form)
      ∧ state_management.get_form_from_state invalid_city_state
        = (invalid_city_state, Ok form1)
      ∧ (∀ other, other ≠ @tools.normalize literal_runtime "City" →
           stored_field form1 other = stored_field form other)
      ∧ (∀ key, key ≠ "property_form" →
           invalid_city_state !! key = city_pattern_state !! key).
Proof.
  assert (@tools.extract_field literal_runtime "City" "Berlin"
            city_pattern_state
          = (invalid_city_state,
             Ok (Error "city" "Berlin" pattern_mismatch_message)))
    as Hcall by (vm_compute; reflexivity).
  split; [exact Hcall |].
  exact (@extract_field_changes_one_field literal_runtime _ _ _ _ _ Hcall).
Defined.

(** X13. What [check_form_status] reports is read from the form the state
    holds after the call: [form_complete] is [is_complete()] of that form,
    recomputed from the statuses, and [missing_fields] its
    [get_missing_fields()], so that the tool reports a complete form
    exactly when it reports no missing field.  The call writes nothing but
    the form's entry, and that only when it is absent. *)
Theorem check_form_status_reports_the_stored_form
    (state state' : State) (r : FormStatus) :
  tools.check_form_status state = (state', Ok r) →
  (∃ form,
     state_management.get_form_from_state state' = (state', Ok form)
     ∧ status_form_complete r = is_complete form
     ∧ status_missing_fields r = get_missing_fields form)
  ∧ (status_form_complete r = true ↔ status_missing_fields r = [])
  ∧ (∀ key, key ≠ "property_form" → state' !! key = state !! key)
  ∧ (is_Some (state !! "property_form") → state' = state).
Proof.
  intros Hcheck.
  destruct (state_management.get_form_from_state state)
    as [st1 [form | e]] eqn:Hget.
  2: { by rewrite (check_form_status_raises _ _ _ Hget) in Hcheck. }
  rewrite (check_form_status_loaded _ _ _ Hget) in Hcheck.
  injection Hcheck as <- <-. cbn [status_form_complete status_missing_fields].
  split; [exists form; split;
            [exact (get_form_from_state_again _ _ _ Hget) | done] |].
  split.
  - split.
    + intros Hc. destruct (get_missing_fields form) eqn:Hm; [done |].
      exfalso. revert Hc Hm. unfold is_complete, get_missing_fields.
      cbn [fields_map foldl forallb].
      destruct (status (budget form)), (status (total_size form)),
        (status (real_estate_type form)), (status (city form)); cbn; by intros.
    + intros Hm. destruct (is_complete form) eqn:Hc; [done |].
      by apply incomplete_has_missing in Hc.
  - split.
    + intros key Hkey.
      exact (get_form_from_state_other_keys _ _ _ _ Hget Hkey).
    + intros [v Hv]. rewrite (get_form_from_state_present _ _ Hv) in Hget.
      by injection Hget as <- _.
Qed.

Lemma check_form_status_reports_the_stored_form_witness :
  tools.check_form_status stale_state
  = (stale_state, Ok (mkFormStatus false required_field_names (VInt 0)))
  ∧ (∃ form,
       state_management.get_form_from_state stale_state
       = (stale_state, Ok form)
       ∧ false = is_complete form
       ∧ required_field_names = get_missing_fields form)
  ∧ (false = true ↔ required_field_names = [])
  ∧ (∀ key, key ≠ "property_form" → stale_state !! key = stale_state !! key)
  ∧ (is_Some (stale_state !! "property_form") → stale_state = stale_state).
Proof.
  assert (tools.check_form_status stale_state
          = (stale_state,
             Ok (mkFormStatus false required_field_names (VInt 0))))
    as Hcheck by (vm_compute; reflexivity).
  split; [exact Hcheck |].
  exact (check_form_status_reports_the_stored_form _ _ _ Hcheck).
Defined.

(** ** The callbacks *)

Lemma count_up_absent (state : State) key start :
  state !! key = None →
  count_up key start state = (<[key := VInt start]> state, Ok tt).
Proof. intros Hkey. unfold count_up. by rewrite Hkey. Qed.

Lemma count_up_int (state : State) key start n :
  state !! key = Some (VInt n) →
  count_up key start state = (<[key := VInt (n + 1)]> state, Ok tt).
Proof. intros Hkey. unfold count_up. by rewrite Hkey. Qed.


(** The counter after [S k] runs on a state without it: [start + k]. *)
Lemma repeat_count_up (state : State) key start (k : nat) :
  state !! key = None →
  repeat_callback (S k) (count_up key start) state
  = (<[key := VInt (start + Z.of_nat k)]> state, Ok tt).
Proof.
  intros Hkey.
  assert (∀ (j : nat) n (st : State),
            st !! key = Some (VInt n) →
            repeat_callback j (count_up key start) st
            = (<[key := VInt (n + Z.of_nat j)]> st, Ok tt)) as Hrun.
  { induction j as [| j IH]; intros n st Hst.
    - cbn [repeat_callback]. unfold mret, Session_ret.
      by rewrite Z.add_0_r, insert_id.
    - cbn [repeat_callback]. unfold mbind, Session_bind.
      rewrite (count_up_int _ _ _ _ Hst).
      rewrite (IH (n + 1)) by apply lookup_insert_eq.
      rewrite insert_insert_eq. do 3 f_equal. lia. }
  cbn [repeat_callback]. unfold mbind, Session_bind.
  rewrite (count_up_absent _ _ _ Hkey).
  rewrite (Hrun k start) by apply lookup_insert_eq.
  by rewrite insert_insert_eq.
Qed.

Lemma before_validator_cb_is_count_up :
  form_validator.before_validator_cb = count_up "form_validation_count" 0.
Proof. reflexivity. Qed.



(** X15. [before_validator_cb] numbers the runs of the validator agent
    from 0: run [k + 1] times on a session without the counter it leaves
    [form_validation_count = k], the count [check_form_status] then
    reports. *)
Theorem before_validator_cb_counts_from_zero (state : State) (k : nat) :
  state !! "form_validation_count" = None →
  repeat_callback (S k) form_validator.before_validator_cb state
  = (<["form_validation_count" := VInt (Z.of_nat k)]> state, Ok tt)
  ∧ ∀ state' r,
      tools.check_form_status
        (<["form_validation_count" := VInt (Z.of_nat k)]> state)
      = (state', Ok r) →
      validation_count r = VInt (Z.of_nat k).
Proof.
  intros Hkey. split.
  - rewrite before_validator_cb_is_count_up.
    by rewrite (repeat_count_up _ _ _ _ Hkey).
  - intros state' r Hcheck.
    destruct (state_management.get_form_from_state
                (<["form_validation_count" := VInt (Z.of_nat k)]> state))
      as [st1 [form | e]] eqn:Hget.
    + rewrite (check_form_status_loaded _ _ _ Hget) in Hcheck.
      injection Hcheck as <- <-. cbn [validation_count].
      rewrite (get_form_from_state_other_keys _ _ _
                 "form_validation_count" Hget) by done.
      by rewrite lookup_insert_eq.
    + by rewrite (check_form_status_raises _ _ _ Hget) in Hcheck.
Qed.

Lemma before_validator_cb_counts_from_zero_witness :
  (∅ : State) !! "form_validation_count" = None
  ∧ repeat_callback 3 form_validator.before_validator_cb ∅
    = (<["form_validation_count" := VInt (Z.of_nat 2)]> ∅, Ok tt)
  ∧ ∀ state' r,
      tools.check_form_status
        (<["form_validation_count" := VInt (Z.of_nat 2)]> ∅)
      = (state', Ok r) →
      validation_count r = VInt (Z.of_nat 2).
Proof.
  split; [reflexivity |].
  exact (before_validator_cb_counts_from_zero ∅ 2 eq_refl).
Defined.

(** X16. [before_agent_cb] is the initialisation of the form followed by
    the count of the extraction attempts from 1: its load and save of an
    absent form write what [initialize_form_in_state] writes.  A form
    entry that is there is kept as it is, whatever it holds, and is not
    even validated. *)
Theorem before_agent_cb_initialises_and_counts (state : State) :
  field_extractor.before_agent_cb state
  = (_ ← state_management.initialize_form_in_state;
     count_up "extraction_count" 1) state
  ∧ (∀ v state' r,
       state !! "property_form" = Some v →
       field_extractor.before_agent_cb state = (state', r) →
       state' !! "property_form" = Some v)
  ∧ (state !! "extraction_count" = None →
     ∃ state',
       field_extractor.before_agent_cb state = (state', Ok tt)
       ∧ state' !! "extraction_count" = Some (VInt 1)
       ∧ is_Some (state' !! "property_form")).
Proof.
  assert (field_extractor.before_agent_cb state
          = (_ ← state_management.initialize_form_in_state;
             count_up "extraction_count" 1) state) as Heq.
  { unfold field_extractor.before_agent_cb,
      state_management.initialize_form_in_state.
    unfold mbind, Session_bind, get_state. cbv beta iota.
    destruct (state !! "property_form") as [v |] eqn:Hv.
    - reflexivity.
    - rewrite (get_form_from_state_absent _ Hv).
      unfold state_management.update_form_in_state, setitem.
      by rewrite insert_insert_eq. }
  split; [exact Heq |]. split.
  - intros v state' r Hv. rewrite Heq.
    unfold state_management.initialize_form_in_state, mbind, Session_bind.
    rewrite Hv. unfold count_up.
    destruct (state !! "extraction_count") as [x |];
      [destruct (form_validator.add_one x) |];
      intros [= <- _]; unfold setitem; by rewrite ?lookup_insert_ne.
  - intros Hcount. rewrite Heq.
    unfold state_management.initialize_form_in_state, mbind, Session_bind.
    destruct (state !! "property_form") as [v |] eqn:Hv.
    + rewrite (count_up_absent _ _ _ Hcount). eexists.
      split; [reflexivity |]. rewrite lookup_insert_eq.
      split; [done |]. rewrite lookup_insert_ne, Hv by done. by eexists.
    + unfold setitem.
      rewrite count_up_absent by by rewrite lookup_insert_ne.
      eexists. split; [reflexivity |]. rewrite lookup_insert_eq.
      split; [done |].
      rewrite lookup_insert_ne, lookup_insert_eq by done. by eexists.
Qed.

Lemma before_agent_cb_initialises_and_counts_witness :
  malformed_state !! "property_form" = Some (VStr "gone")
  ∧ field_extractor.before_agent_cb malformed_state
    = (<["extraction_count" := VInt 1]> malformed_state, Ok tt)
  ∧ <["extraction_count" := VInt 1]> malformed_state !! "property_form"
    = Some (VStr "gone")
  ∧ malformed_state !! "extraction_count" = None
  ∧ ∃ state',
      field_extractor.before_agent_cb malformed_state = (state', Ok tt)
      ∧ state' !! "extraction_count" = Some (VInt 1)
      ∧ is_Some (state' !! "property_form").
Proof.
  destruct (before_agent_cb_initialises_and_counts malformed_state)
    as (_ & Hkeep & Hcount).
  assert (field_extractor.before_agent_cb malformed_state
          = (<["extraction_count" := VInt 1]> malformed_state, Ok tt))
    as Hrun by (vm_compute; reflexivity).
  split; [reflexivity |]. split; [exact Hrun |].
  split; [exact (Hkeep _ _ _ eq_refl Hrun) |].
  split; [reflexivity |].
  exact (Hcount eq_refl).
Defined.

(** ** Sessions of the application *)

Section SessionFacts.
Context `{PyRuntime}.

Lemma counter_ok_insert_other (state : State) key other x :
  other ≠ key → counter_ok state key → counter_ok (<[other := x]> state) key.
Proof. intros Hne. unfold counter_ok. by rewrite lookup_insert_ne. Qed.

Lemma session_ok_insert_form (state : State) form :
  session_ok state → patternless form →
  form_complete form = is_complete form →
  session_ok (<["property_form" := model_dump form]> state).
Proof.
  intros (_ & Ht & Hx & Hv) Hp Hc. split.
  - right. exists form. by rewrite lookup_insert_eq.
  - repeat split; by apply counter_ok_insert_other.
Qed.

Lemma counter_ok_insert_int (state : State) key n key' :
  counter_ok state key' → counter_ok (<[key := VInt n]> state) key'.
Proof.
  intros Hc. unfold counter_ok.
  destruct (decide (key = key')) as [-> | Hne].
  - rewrite lookup_insert_eq. right. by eexists.
  - by rewrite lookup_insert_ne.
Qed.

Lemma session_ok_insert_counter (state : State) key n :
  key ≠ "property_form" →
  session_ok state → session_ok (<[key := VInt n]> state).
Proof.
  intros Hne (Hform & Ht & Hx & Hv).
  split; [by rewrite lookup_insert_ne |].
  repeat split; by apply counter_ok_insert_int.
Qed.

(** In a session of the application the load returns a form without
    patterns, with its flag up to date, and leaves such a session. *)
Lemma session_ok_load (state : State) :
  session_ok state →
  ∃ state' form,
    state_management.get_form_from_state state = (state', Ok form)
    ∧ patternless form ∧ form_complete form = is_complete form
    ∧ session_ok state'.
Proof.
  intros Hok. pose proof Hok as ([Hnone | (form & Hform & Hp & Hc)] & _).
  - rewrite (get_form_from_state_absent _ Hnone).
    eexists _, _. split; [reflexivity |].
    split; [by repeat split |]. split; [reflexivity |].
    apply session_ok_insert_form;
      [exact Hok | by repeat split | reflexivity].
  - rewrite (get_form_from_state_present _ _ Hform), model_roundtrip.
    by exists state, form.
Qed.

(** Without patterns every update succeeds. *)
Lemma update_field_patternless_succeeds form name v :
  patternless form →
  ∃ form1, update_field form name v = Ok (form1, (true, None))
    ∧ patternless form1.
Proof.
  intros Hp.
  destruct (decide (name ∈ required_field_names)) as [Hin | Hin].
  - destruct (getattr_required form name Hin) as [field Hget].
    pose proof (getattr_patternless _ _ _ Hp Hget) as Hnone.
    pose proof (validate_value_no_pattern field v Hnone) as Hval.
    rewrite (update_field_required _ _ _ _ _ _ Hin Hget Hval).
    eexists. split; [reflexivity |].
    cbn [fst update_completion_status].
    apply (setattr_patternless form name); by auto.
  - rewrite update_field_additional by done.
    eexists. split; [reflexivity | exact Hp].
Qed.

Lemma session_ok_extract_field (state : State) field_name v :
  session_ok state →
  ∃ state' r,
    tools.extract_field field_name v state = (state', Ok r)
    ∧ result_status r ≠ "error" ∧ session_ok state'.
Proof.
  intros Hok.
  destruct (session_ok_load _ Hok) as (state' & form & Hget & Hp & Hc & Hok').
  destruct (decide (tools.current_value_of form (tools.normalize field_name)
                      (bool_decide (tools.normalize field_name
                                    ∈ tools.standard_fields))
                    = Some v)) as [Hcur | Hcur].
  - rewrite (extract_field_short_cut _ _ _ _ _ Hget Hcur).
    eexists _, _. split; [reflexivity |]. split; [done |]. exact Hok.
  - destruct (update_field_patternless_succeeds form
                (tools.normalize field_name) v Hp) as (form1 & Hup & Hp1).
    rewrite (extract_field_updates _ _ _ _ _ _ _ _ Hget Hcur Hup).
    eexists _, _. split; [reflexivity |]. split; [done |].
    apply session_ok_insert_form; [exact Hok' | exact Hp1 |].
    exact (update_field_keeps_cache _ _ _ _ _ Hc Hup).
Qed.

Lemma session_ok_check_form_status (state : State) :
  session_ok state →
  ∃ state' r,
    tools.check_form_status state = (state', Ok r) ∧ session_ok state'.
Proof.
  intros Hok.
  destruct (session_ok_load _ Hok) as (state' & form & Hget & _ & _ & Hok').
  rewrite (check_form_status_loaded _ _ _ Hget).
  by eexists _, _.
Qed.

Lemma session_ok_count_up (state : State) key start :
  key ≠ "property_form" → counter_ok state key →
  session_ok state →
  ∃ state', count_up key start state = (state', Ok tt) ∧ session_ok state'.
Proof.
  intros Hkey [Hnone | [n Hn]] Hok.
  - rewrite (count_up_absent _ _ _ Hnone). eexists.
    split; [reflexivity | by apply session_ok_insert_counter].
  - rewrite (count_up_int _ _ _ _ Hn). eexists.
    split; [reflexivity | by apply session_ok_insert_counter].
Qed.

Lemma session_ok_initialize (state : State) :
  session_ok state →
  ∃ state',
    state_management.initialize_form_in_state state = (state', Ok tt)
    ∧ session_ok state'.
Proof.
  intros Hok. unfold state_management.initialize_form_in_state.
  destruct (state !! "property_form") eqn:Hform.
  - by exists state.
  - eexists. split; [reflexivity |].
    apply session_ok_insert_form;
      [exact Hok | by repeat split | reflexivity].
Qed.

Lemma before_agent_cb_unfolded (state : State) :
  field_extractor.before_agent_cb state
  = (_ ← state_management.initialize_form_in_state;
     count_up "extraction_count" 1) state.
Proof.
  unfold field_extractor.before_agent_cb,
    state_management.initialize_form_in_state.
  unfold mbind, Session_bind, get_state. cbv beta iota.
  destruct (state !! "property_form") as [v |] eqn:Hv; [reflexivity |].
  rewrite (get_form_from_state_absent _ Hv).
  unfold state_management.update_form_in_state, setitem.
  by rewrite insert_insert_eq.
Qed.

Lemma session_ok_run_call (state : State) call :
  session_ok state →
  ∃ state' outcome,
    session.run_call call state = (state', Ok outcome)
    ∧ session_ok state'
    ∧ ∀ r, outcome = Extracted r → result_status r ≠ "error".
Proof.
  intros Hok. destruct call as [field_name v | | | |];
    unfold session.run_call, mbind, Session_bind.
  - destruct (session_ok_extract_field _ field_name v Hok)
      as (state' & r & -> & Herr & Hok').
    eexists _, _. split; [reflexivity |]. split; [exact Hok' |].
    by intros r' [= <-].
  - destruct (session_ok_check_form_status _ Hok) as (state' & r & -> & Hok').
    eexists _, _. split; [reflexivity |]. by split.
  - unfold root_agent.before_root_cb.
    destruct (session_ok_count_up state "conversation_turn" 1)
      as (state' & -> & Hok'); [done | apply Hok | exact Hok |].
    eexists _, _. split; [reflexivity |]. by split.
  - rewrite before_agent_cb_unfolded. unfold mbind, Session_bind.
    destruct (session_ok_initialize _ Hok) as (state1 & -> & Hok1).
    destruct (session_ok_count_up state1 "extraction_count" 1)
      as (state' & -> & Hok'); [done | apply Hok1 | exact Hok1 |].
    eexists _, _. split; [reflexivity |]. by split.
  - rewrite before_validator_cb_is_count_up.
    destruct (session_ok_count_up state "form_validation_count" 0)
      as (state' & -> & Hok'); [done | apply Hok | exact Hok |].
    eexists _, _. split; [reflexivity |]. by split.
Qed.

End SessionFacts.

(** X17. In a session of the application (no form yet, or a form without
    validation patterns whose flag is up to date, and integer counters)
    every sequence of tool calls and callbacks returns: nothing raises,
    [extract_field] never reports "error", and the session stays one of
    the application.  No code of the application ever sets a validation
    pattern. *)
Theorem application_sessions_never_fail `{PyRuntime}
    (state : State) (calls : list Call) :
  session_ok state →
  ∃ state' outcomes,
    session.run_calls calls state = (state', Ok outcomes)
    ∧ session_ok state'
    ∧ List.length outcomes = List.length calls
    ∧ ∀ r, Extracted r ∈ outcomes → result_status r ≠ "error".
Proof.
  revert state. induction calls as [| call calls IH]; intros state Hok.
  - exists state, []. split; [reflexivity |]. split; [exact Hok |].
    split; [reflexivity |].
    intros r Hin. by apply elem_of_nil in Hin.
  - destruct (session_ok_run_call state call Hok)
      as (state1 & outcome & Hcall & Hok1 & Herr).
    destruct (IH state1 Hok1) as (state' & outcomes & Hrun & Hok' & Hlen & Hall).
    exists state', (outcome :: outcomes).
    split.
    { cbn [session.run_calls]. unfold mbind, Session_bind.
      by rewrite Hcall, Hrun. }
    split; [exact Hok' |]. split; [cbn [List.length]; by rewrite Hlen |].
    intros r Hin. apply elem_of_cons in Hin as [Heq | Hin].
    + by apply Herr.
    + by apply Hall.
Qed.

Lemma application_sessions_never_fail_witness :
  session_ok ∅
  ∧ ∃ state' outcomes,
      @session.run_calls literal_runtime
        [CallBeforeRoot; CallBeforeAgent; CallExtractField "City" "Lima";
         CallExtractField "Parking" "yes"; CallBeforeValidator;
         CallCheckFormStatus] ∅
      = (state', Ok outcomes)
      ∧ session_ok state'
      ∧ List.length outcomes
        = List.length [CallBeforeRoot; CallBeforeAgent;
                  CallExtractField "City" "Lima";
                  CallExtractField "Parking" "yes"; CallBeforeValidator;
                  CallCheckFormStatus]
      ∧ ∀ r, Extracted r ∈ outcomes → result_status r ≠ "error".
Proof.
  assert (session_ok ∅) as Hok.
  { split; [by left |]. repeat split; by left. }
  split; [exact Hok |].
  exact (@application_sessions_never_fail literal_runtime ∅ _ Hok).
Defined.

(** ** Streaming *)

Section StreamFacts.
Import main response_handler.

Lemma string_app_nil_r (s : string) : (s ++ "")%string = s.
Proof.
  induction s as [| c s IH]; [done |].
  change (String c (s ++ "")%string = String c s). by rewrite IH.
Qed.

Lemma string_app_assoc (a b c : string) :
  ((a ++ b) ++ c)%string = (a ++ b ++ c)%string.
Proof.
  induction a as [| x a IH]; [done |].
  change (String x ((a ++ b) ++ c)%string = String x (a ++ b ++ c)%string).
  by rewrite IH.
Qed.

Lemma concat_empty_cons (x : string) (l : list string) :
  String.concat "" (x :: l) = (x ++ String.concat "" l)%string.
Proof.
  destruct l as [| y l]; [| reflexivity].
  cbn [String.concat]. by rewrite string_app_nil_r.
Qed.

Lemma str_truthy_false (s : string) : str_truthy s = false ↔ s = "".
Proof. by destruct s. Qed.

(** The loop goes through chunks that are not done. *)
Lemma stream_loop_app (l1 l2 : list Chunk) acc final shown :
  Forall (λ chunk, chunk_done chunk = false) l1 →
  stream_loop (l1 ++ l2) acc final shown
  = let '(acc1, final1, shown1) := stream_loop l1 acc final shown in
    stream_loop l2 acc1 final1 shown1.
Proof.
  intros Hl1. revert acc final shown.
  induction Hl1 as [| chunk l1 Hdone _ IH]; intros acc final shown; [done |].
  cbn [app stream_loop]. rewrite Hdone.
  destruct (str_truthy (chunk_text chunk) && chunk_partial chunk);
    [apply IH |].
  destruct (str_truthy (chunk_text chunk) && negb (chunk_partial chunk));
    apply IH.
Qed.

(** The loop stops at a chunk that is done. *)
Lemma stream_loop_done (chunk : Chunk) (rest : list Chunk) acc final shown :
  chunk_done chunk = true →
  stream_loop (chunk :: rest) acc final shown
  = stream_loop [chunk] acc final shown.
Proof.
  intros Hdone. cbn [stream_loop]. rewrite Hdone.
  destruct (str_truthy (chunk_text chunk) && chunk_partial chunk); [done |].
  by destruct (str_truthy (chunk_text chunk) && negb (chunk_partial chunk)).
Qed.

(** Partial chunks that are not done extend the accumulated text. *)
Lemma stream_loop_partial (l : list Chunk) acc final shown :
  Forall (λ chunk, chunk_partial chunk = true ∧ chunk_done chunk = false) l →
  ∃ shown',
    stream_loop l acc final shown
    = ((acc ++ String.concat "" (chunk_text <$> l))%string, final, shown').
Proof.
  intros Hl. revert acc shown.
  induction Hl as [| chunk l [Hpartial Hdone] _ IH]; intros acc shown.
  - exists shown. cbn. by rewrite string_app_nil_r.
  - cbn [stream_loop]. rewrite Hpartial, Hdone, andb_true_r.
    rewrite fmap_cons, concat_empty_cons.
    destruct (str_truthy (chunk_text chunk)) eqn:Htext; cbn [andb negb].
    + destruct (IH (acc ++ chunk_text chunk)%string
                  (shown ++ [("**Assistant:** " ++ acc
                              ++ chunk_text chunk)%string])%list)
        as [shown' ->].
      exists shown'. by rewrite string_app_assoc.
    + apply str_truthy_false in Htext. rewrite Htext.
      destruct (IH acc shown) as [shown' ->]. by exists shown'.
Qed.

(** One chunk: what it does to the text and to the complete text. *)
Lemma stream_loop_one (chunk : Chunk) acc final shown :
  ∃ shown',
    stream_loop [chunk] acc final shown
    = (if chunk_partial chunk then (acc ++ chunk_text chunk)%string else acc,
       if str_truthy (chunk_text chunk) && negb (chunk_partial chunk)
       then Some (chunk_text chunk) else final,
       shown').
Proof.
  cbn [stream_loop].
  destruct (chunk_partial chunk), (str_truthy (chunk_text chunk)) eqn:Htext;
    cbn [andb negb]; try apply str_truthy_false in Htext;
    rewrite ?Htext, ?string_app_nil_r;
    destruct (chunk_done chunk); by eexists.
Qed.

(** Chunks without a complete text keep the complete text received. *)
Lemma stream_loop_keeps_final (l : list Chunk) acc text shown :
  Forall (λ chunk, ¬ complete_text_chunk chunk) l →
  ∃ acc' shown',
    stream_loop l acc (Some text) shown = (acc', Some text, shown').
Proof.
  intros Hl. revert acc shown.
  induction Hl as [| chunk l Hnot _ IH]; intros acc shown;
    [by eexists _, _ |].
  cbn [stream_loop].
  destruct (str_truthy (chunk_text chunk)) eqn:Htext,
    (chunk_partial chunk) eqn:Hpartial; cbn [andb negb].
  - destruct (chunk_done chunk); [by eexists _, _ | apply IH].
  - exfalso. apply Hnot. split; [done |]. intros Hempty.
    by rewrite Hempty in Htext.
  - destruct (chunk_done chunk); [by eexists _, _ | apply IH].
  - destruct (chunk_done chunk); [by eexists _, _ | apply IH].
Qed.

End StreamFacts.

(** X18. [process_stream] stops at the first chunk that is done: the
    chunks after it change neither the text returned nor the texts
    shown. *)
Theorem process_stream_stops_when_done
    (before after : list main.Chunk) (chunk : main.Chunk) :
  Forall (λ c, main.chunk_done c = false) before →
  main.chunk_done chunk = true →
  response_handler.process_stream (before ++ chunk :: after)
  = response_handler.process_stream (before ++ [chunk]).
Proof.
  intros Hbefore Hdone. unfold response_handler.process_stream.
  rewrite !stream_loop_app by done.
  destruct (response_handler.stream_loop before "" None [])
    as [[acc final] shown].
  by rewrite (stream_loop_done chunk after).
Qed.

Lemma process_stream_stops_when_done_witness :
  Forall (λ c, main.chunk_done c = false) [main.mkChunk "Hel" false true]
  ∧ main.chunk_done (main.mkChunk "lo" true true) = true
  ∧ response_handler.process_stream
      ([main.mkChunk "Hel" false true]
       ++ main.mkChunk "lo" true true :: [main.mkChunk "late" false true])
    = response_handler.process_stream
        ([main.mkChunk "Hel" false true] ++ [main.mkChunk "lo" true true]).
Proof.
  assert (Forall (λ c, main.chunk_done c = false)
            [main.mkChunk "Hel" false true]) as Hbefore
    by (apply Forall_cons; split; [reflexivity | apply Forall_nil_2]).
  split; [exact Hbefore |]. split; [reflexivity |].
  exact (process_stream_stops_when_done _ [main.mkChunk "late" false true]
           (main.mkChunk "lo" true true) Hbefore eq_refl).
Defined.

(** X19. When every chunk received is partial, and none but possibly the
    last is done, the text returned is the concatenation of the texts of
    the chunks, in the order received. *)
Theorem process_stream_concatenates_partial_chunks
    (chunks : list main.Chunk) (last_chunk : main.Chunk) :
  Forall (λ c, main.chunk_partial c = true ∧ main.chunk_done c = false)
    chunks →
  main.chunk_partial last_chunk = true →
  (response_handler.process_stream (chunks ++ [last_chunk])).1
  = String.concat "" (main.chunk_text <$> (chunks ++ [last_chunk])%list).
Proof.
  intros Hchunks Hpartial. unfold response_handler.process_stream.
  rewrite stream_loop_app
    by (eapply Forall_impl; [exact Hchunks | by intros c [_ Hdone]]).
  destruct (stream_loop_partial chunks "" None [] Hchunks) as [shown ->].
  destruct (stream_loop_one last_chunk
              ("" ++ String.concat "" (main.chunk_text <$> chunks))%string
              None shown)
    as [shown' ->].
  rewrite Hpartial, andb_false_r. cbn [fst].
  change ("" ++ String.concat "" (main.chunk_text <$> chunks))%string
    with (String.concat "" (main.chunk_text <$> chunks)).
  rewrite fmap_app. cbn [fmap list_fmap].
  clear. induction (main.chunk_text <$> chunks) as [| x l IH].
  - reflexivity.
  - cbn [app]. rewrite !concat_empty_cons, <- IH.
    by rewrite string_app_assoc.
Qed.

Lemma process_stream_concatenates_partial_chunks_witness :
  Forall (λ c, main.chunk_partial c = true ∧ main.chunk_done c = false)
    [main.mkChunk "Hel" false true]
  ∧ main.chunk_partial (main.mkChunk "lo" true true) = true
  ∧ (response_handler.process_stream
       ([main.mkChunk "Hel" false true] ++ [main.mkChunk "lo" true true])).1
    = String.concat ""
        (main.chunk_text
           <$> ([main.mkChunk "Hel" false true]
                ++ [main.mkChunk "lo" true true])%list).
Proof.
  assert (Forall (λ c, main.chunk_partial c = true
                       ∧ main.chunk_done c = false)
            [main.mkChunk "Hel" false true]) as Hchunks
    by (apply Forall_cons; split; [by split | apply Forall_nil_2]).
  split; [exact Hchunks |]. split; [reflexivity |].
  exact (process_stream_concatenates_partial_chunks _
           (main.mkChunk "lo" true true) Hchunks eq_refl).
Defined.

(** X20. A complete text replaces what was accumulated: when a chunk that
    is not partial and has a text is received before any chunk that is
    done, and no such chunk comes after it, the text returned is the text
    of that chunk, whatever the partial chunks before and after it
    carried.  The error chunk of [run_streaming] is such a chunk. *)
Theorem process_stream_returns_the_complete_text
    (before after : list main.Chunk) (chunk : main.Chunk) :
  Forall (λ c, main.chunk_done c = false) before →
  complete_text_chunk chunk →
  Forall (λ c, ¬ complete_text_chunk c) after →
  (response_handler.process_stream (before ++ chunk :: after)).1
  = main.chunk_text chunk.
Proof.
  intros Hbefore [Hpartial Htext] Hafter.
  unfold response_handler.process_stream.
  rewrite stream_loop_app by done.
  destruct (response_handler.stream_loop before "" None [])
    as [[acc final] shown].
  assert (str_truthy (main.chunk_text chunk) = true) as Htruthy.
  { destruct (main.chunk_text chunk); [done | reflexivity]. }
  destruct (main.chunk_done chunk) eqn:Hdone.
  - rewrite (stream_loop_done chunk after) by done.
    destruct (stream_loop_one chunk acc final shown) as [shown' ->].
    by rewrite Htruthy, Hpartial.
  - change (chunk :: after) with ([chunk] ++ after)%list.
    rewrite stream_loop_app
      by (apply Forall_cons; split; [done | apply Forall_nil_2]).
    destruct (stream_loop_one chunk acc final shown) as [shown' ->].
    rewrite Htruthy, Hpartial. cbn [andb negb].
    by destruct (stream_loop_keeps_final after acc (main.chunk_text chunk)
                   shown' Hafter) as (acc' & shown'' & ->).
Qed.

Lemma process_stream_returns_the_complete_text_witness :
  Forall (λ c, main.chunk_done c = false) [main.mkChunk "Hel" false true]
  ∧ complete_text_chunk (main.mkChunk "Error: closed" true false)
  ∧ Forall (λ c, ¬ complete_text_chunk c) [main.mkChunk "lo" false true]
  ∧ (response_handler.process_stream
       ([main.mkChunk "Hel" false true]
        ++ main.mkChunk "Error: closed" true false
             :: [main.mkChunk "lo" false true])).1
    = main.chunk_text (main.mkChunk "Error: closed" true false).
Proof.
  assert (Forall (λ c, main.chunk_done c = false)
            [main.mkChunk "Hel" false true]) as Hbefore
    by (apply Forall_cons; split; [reflexivity | apply Forall_nil_2]).
  assert (complete_text_chunk (main.mkChunk "Error: closed" true false))
    as Hchunk by (split; [reflexivity | discriminate]).
  assert (Forall (λ c, ¬ complete_text_chunk c)
            [main.mkChunk "lo" false true]) as Hafter.
  { apply Forall_cons. split; [| apply Forall_nil_2].
    intros [Hpartial _]. discriminate Hpartial. }
  split; [exact Hbefore |]. split; [exact Hchunk |]. split; [exact Hafter |].
  exact (process_stream_returns_the_complete_text _ _ _
           Hbefore Hchunk Hafter).
Defined.

(** X21. An event without text in its first part (no content, no parts,
    an empty list of parts, or a first part whose text is absent or
    empty) that does not complete the turn leaves no trace: the response
    built from the stream of events is the one built without it. *)
Theorem textless_events_leave_no_trace
    (before after : list main.Event) (event : main.Event) :
  first_text event = None ∨ first_text event = Some "" →
  main.turn_complete event = None ∨ main.turn_complete event = Some false →
  response_handler.process_stream
    (main.process_live_events (before ++ event :: after))
  = response_handler.process_stream
      (main.process_live_events (before ++ after)).
Proof.
  intros Htext Hturn.
  assert (main.chunk_text (main.chunk_of_event event) = "") as Hempty.
  { destruct event as [p tc c]. destruct c as [[ps] |]; [| done].
    destruct ps as [[| [text] ps] |]; [done | | done].
    destruct text as [text |]; [| done].
    destruct Htext as [Htext | Htext]; [discriminate Htext |].
    injection Htext as ->. reflexivity. }
  assert (main.chunk_done (main.chunk_of_event event) = false) as Hdone.
  { unfold main.chunk_of_event. cbn [main.chunk_done].
    by destruct Hturn as [-> | ->]. }
  unfold response_handler.process_stream, main.process_live_events.
  rewrite !List.map_app. cbn [List.map].
  generalize (List.map main.chunk_of_event before) as l1.
  generalize (List.map main.chunk_of_event after) as l2.
  generalize (@nil string) as shown. generalize (@None string) as final.
  generalize "" as acc.
  intros acc final shown l2 l1. revert acc final shown.
  induction l1 as [| chunk l1 IH]; intros acc final shown.
  - cbn [app response_handler.stream_loop].
    by rewrite Hempty, Hdone.
  - cbn [app response_handler.stream_loop].
    destruct (main.chunk_done chunk); [done |].
    destruct (str_truthy (main.chunk_text chunk) && main.chunk_partial chunk);
      [apply IH |].
    destruct (str_truthy (main.chunk_text chunk)
              && negb (main.chunk_partial chunk)); apply IH.
Qed.

Lemma textless_events_leave_no_trace_witness :
  (first_text (main.mkEvent (Some true) None (Some (main.mkContent (Some []))))
   = None
   ∨ first_text
       (main.mkEvent (Some true) None (Some (main.mkContent (Some []))))
     = Some "")
  ∧ (main.turn_complete
       (main.mkEvent (Some true) None (Some (main.mkContent (Some []))))
     = None
     ∨ main.turn_complete
         (main.mkEvent (Some true) None (Some (main.mkContent (Some []))))
       = Some false)
  ∧ response_handler.process_stream
      (main.process_live_events
         ([] ++ main.mkEvent (Some true) None
                  (Some (main.mkContent (Some [])))
             :: [main.mkEvent None (Some true)
                   (Some (main.mkContent
                            (Some [main.mkPart (Some "Done.")])))]))
    = response_handler.process_stream
        (main.process_live_events
           ([] ++ [main.mkEvent None (Some true)
                     (Some (main.mkContent
                              (Some [main.mkPart (Some "Done.")])))])).
Proof.
  split; [by left |]. split; [by left |].
  apply (textless_events_leave_no_trace []); by left.
Defined.

(** ** The cached flag in a stored form *)

(** X22. The summary trusts the cached flag and [check_form_status]
    does not: for a stored form whose [form_complete] is true while a
    required field is not VALID, the tool reports an incomplete form with
    missing fields, and the summary of the same form ends with the banner
    "All required fields are complete!". *)
Theorem summary_trusts_the_cached_flag (state : State)
    (form : PropertyFormModel) (str_title : string → string)
    (items : list (string * PropertyField)) :
  state !! "property_form" = Some (model_dump form) →
  form_complete form = true →
  is_complete form = false →
  (∃ r, tools.check_form_status state = (state, Ok r)
        ∧ status_form_complete r = false
        ∧ status_missing_fields r ≠ [])
  ∧ last (form_summary.summary_entries str_title items form)
    = Some (mark_valid ++ " All required fields are complete!")%string.
Proof.
  intros Hform Hflag Hcomplete. split.
  - assert (state_management.get_form_from_state state = (state, Ok form))
      as Hget.
    { by rewrite (get_form_from_state_present _ _ Hform), model_roundtrip. }
    rewrite (check_form_status_loaded _ _ _ Hget).
    eexists. split; [reflexivity |].
    cbn [status_form_complete status_missing_fields].
    split; [exact Hcomplete | by apply incomplete_has_missing].
  - rewrite last_summary_entries.
    unfold form_summary.status_entry. by rewrite Hflag.
Qed.

Lemma summary_trusts_the_cached_flag_witness :
  stale_state !! "property_form"
    = Some (model_dump (set_form_complete true PropertyFormModel_new))
  ∧ form_complete (set_form_complete true PropertyFormModel_new) = true
  ∧ is_complete (set_form_complete true PropertyFormModel_new) = false
  ∧ (∃ r, tools.check_form_status stale_state = (stale_state, Ok r)
          ∧ status_form_complete r = false
          ∧ status_missing_fields r ≠ [])
  ∧ last (form_summary.summary_entries (λ s, s) []
            (set_form_complete true PropertyFormModel_new))
    = Some (mark_valid ++ " All required fields are complete!")%string.
Proof.
  split; [reflexivity |]. split; [reflexivity |]. split; [reflexivity |].
  exact (summary_trusts_the_cached_flag stale_state
           (set_form_complete true PropertyFormModel_new) (λ s, s) []
           eq_refl eq_refl eq_refl).
Defined.
